(** * PyFBA: preparing an SBML model for flux-balance analysis

    A shallow embedding of the code cells of
    [iPythonNotebooks/Using_an_SBML_model.ipynb]: the reaction
    classification loop, the compound filter, the reconciliation of the
    reaction bounds with the growth medium, and the call of
    [PyFBA.fba.run_fba].

    Python objects are mutable and shared.  The dictionary
    [sbml.reactions] is the store that owns the reaction objects, one
    per reaction id; a reference to a reaction object is the id under
    which the store holds it.  The dictionary
    [uptake_secretion_reactions] and the variable [biomass_equation]
    hold such references, never copies, so a write through one view is
    seen through the others. *)

From Stdlib Require Import String Ascii ZArith.
From Stdlib Require Import Floats.SpecFloat.
From stdpp Require Import gmap strings list fin_maps.

Local Open Scope string_scope.
Local Open Scope list_scope.

(** * The notebook *)

(** ** Exceptions and results *)

(** [KeyError] is what a subscript [d[k]] raises on a missing key.
    [MissingObjective] is the error the specification names for a solve
    request without an objective reaction; no cell of the notebook raises
    it. *)
Inductive exn : Type :=
| KeyError (k : string)
| MissingObjective.

Inductive result (A : Type) : Type :=
| Ok (a : A)
| Raise (e : exn).
Arguments Ok {A} a.
Arguments Raise {A} e.

#[global] Instance result_ret : MRet result := λ A a, Ok a.
#[global] Instance result_bind : MBind result := λ A B f m,
  match m with
  | Ok a => f a
  | Raise e => Raise e
  end.

(** [for k in ks: st = body st k], stopping at the first exception. *)
Fixpoint for_each {S K : Type} (body : S → K → result S) (ks : list K) (st : S)
  : result S :=
  match ks with
  | [] => Ok st
  | k :: ks' => st' ← body st k; for_each body ks' st'
  end.

(** The subscript [d[k]] of a dictionary. *)
Definition getitem {A : Type} (d : gmap string A) (k : string) : result A :=
  match d !! k with
  | Some v => Ok v
  | None => Raise (KeyError k)
  end.

(** The order in which a [for] loop visits the keys of a dictionary.
    Python 2 visits every key once, in an order the program cannot rely
    on; the notebook is modelled, and its properties are proved, for every
    such order. *)
Class DictOrder : Type := {
  dict_keys : ∀ {A : Type}, gmap string A → list string;
  dict_keys_NoDup : ∀ {A : Type} (d : gmap string A), NoDup (dict_keys d);
  elem_of_dict_keys : ∀ {A : Type} (d : gmap string A) (k : string),
    k ∈ dict_keys d ↔ is_Some (d !! k)
}.

(** ** Strings: [str.lower] and the [in] test on strings *)

Definition lower_ascii (c : ascii) : ascii :=
  let n := nat_of_ascii c in
  if (65 <=? n)%nat && (n <=? 90)%nat then ascii_of_nat (n + 32) else c.

Fixpoint lower (s : string) : string :=
  match s with
  | EmptyString => EmptyString
  | String c s' => String (lower_ascii c) (lower s')
  end.

(** [pat in s] for two strings: [pat] occurs in [s] as a substring. *)
Fixpoint str_in (pat s : string) : bool :=
  String.prefix pat s ||
  match s with
  | EmptyString => false
  | String _ s' => str_in pat s'
  end.

(** ** Data model *)

(** Modelled from the spec: the class [metabolite.compound.Compound] of
    PyFBA is not among the sources.  A compound has an identifier, a
    display name, and the flag [uptake_secretion], which is the one
    attribute the notebook reads. *)
Record Compound : Type := {
  compound_id : string;
  cname : string;
  uptake_secretion : bool
}.

(** Flux bounds are Python floats; [0.0] is positive zero. *)
Definition float_zero : spec_float := S754_zero false.

(** Modelled from the spec: the class [metabolism.reaction.Reaction] of
    PyFBA is not among the sources.  A reaction has an identifier, a
    display name, its compounds (what the method [all_compounds]
    returns), a lower and an upper flux bound, and the flag
    [is_uptake_secretion]. *)
Record Reaction : Type := {
  reaction_id : string;
  name : string;
  all_compounds : list Compound;
  lower_bound : spec_float;
  upper_bound : spec_float;
  is_uptake_secretion : bool
}.

(** Attribute writes [o.is_uptake_secretion = b] and [o.lower_bound = x]. *)
Definition set_is_uptake_secretion (b : bool) (o : Reaction) : Reaction :=
  {| reaction_id := reaction_id o;
     name := name o;
     all_compounds := all_compounds o;
     lower_bound := lower_bound o;
     upper_bound := upper_bound o;
     is_uptake_secretion := b |}.

Definition set_lower_bound (x : spec_float) (o : Reaction) : Reaction :=
  {| reaction_id := reaction_id o;
     name := name o;
     all_compounds := all_compounds o;
     lower_bound := x;
     upper_bound := upper_bound o;
     is_uptake_secretion := is_uptake_secretion o |}.

(** A reference to a reaction object: the key of its slot in the store. *)
Abbreviation ref := string (only parsing).

(** Modelled from the spec: the model that [PyFBA.parse.parse_sbml_file]
    returns; the parser is not among the sources.  The notebook reads its
    dictionary of reactions and its dictionary of compounds, both keyed by
    id. *)
Record SBML : Type := {
  reactions : gmap string Reaction;
  compounds : gmap string Compound
}.

(** ** Cell 3: classification of the reactions *)

(** ['biomass_equation' in o.name.lower()] *)
Definition is_biomass (o : Reaction) : bool :=
  str_in "biomass_equation" (lower (name o)).

(** The inner loop: [is_boundary] starts [False] and is set by every
    compound whose flag is set. *)
Definition scan_boundary (cs : list Compound) : bool :=
  fold_left (λ is_boundary c, if uptake_secretion c then true else is_boundary)
            cs false.

(** The variables the cell works on.  [cl_reactions] is the store
    [reactions], whose objects the loop writes to. *)
Record classifier_state : Type := {
  cl_reactions : gmap string Reaction;
  reactions_to_run : gset string;
  uptake_secretion_reactions : gmap string ref;
  biomass_equation : option ref
}.

Definition classify_init (rs : gmap string Reaction) : classifier_state :=
  {| cl_reactions := rs;
     reactions_to_run := ∅;
     uptake_secretion_reactions := ∅;
     biomass_equation := None |}.

(** One iteration of [for r in reactions]. *)
Definition classify_body (st : classifier_state) (r : string)
  : result classifier_state :=
  o ← getitem (cl_reactions st) r;
  if is_biomass o then
    mret {| cl_reactions := cl_reactions st;
            reactions_to_run := reactions_to_run st;
            uptake_secretion_reactions := uptake_secretion_reactions st;
            biomass_equation := Some r |}
  else if scan_boundary (all_compounds o) then
    mret {| cl_reactions :=
              <[r := set_is_uptake_secretion true o]> (cl_reactions st);
            reactions_to_run := reactions_to_run st;
            uptake_secretion_reactions :=
              <[r := r]> (uptake_secretion_reactions st);
            biomass_equation := biomass_equation st |}
  else
    mret {| cl_reactions := cl_reactions st;
            reactions_to_run := {[r]} ∪ reactions_to_run st;
            uptake_secretion_reactions := uptake_secretion_reactions st;
            biomass_equation := biomass_equation st |}.

Definition classify_over (ks : list string) (rs : gmap string Reaction)
  : result classifier_state :=
  for_each classify_body ks (classify_init rs).

Definition classify {order : DictOrder} (rs : gmap string Reaction)
  : result classifier_state :=
  classify_over (dict_keys rs) rs.

(** ** Cell 5: the compound filter *)

Definition filter_body (all_compounds : gmap string Compound)
    (filtered_compounds : gmap string Compound) (c : string)
  : result (gmap string Compound) :=
  o ← getitem all_compounds c;
  if negb (uptake_secretion o) then
    o' ← getitem all_compounds c;
    mret (<[c := o']> filtered_compounds)
  else mret filtered_compounds.

Definition filter_compounds {order : DictOrder} (all_compounds : gmap string Compound)
  : result (gmap string Compound) :=
  for_each (filter_body all_compounds) (dict_keys all_compounds) ∅.

(** ** Cells 9 and 10: the bounds, and the call of the solver *)

(** What is handed to [PyFBA.fba.run_fba], argument by argument. *)
Record fba_call (Medium : Type) : Type := {
  arg_compounds : gmap string Compound;
  arg_reactions : gmap string Reaction;
  arg_reactions_to_run : gset string;
  arg_media : Medium;
  arg_biomass_equation : option ref;
  arg_uptake_secretion_reactions : gmap string ref
}.
Arguments arg_compounds {Medium} _.
Arguments arg_reactions {Medium} _.
Arguments arg_reactions_to_run {Medium} _.
Arguments arg_media {Medium} _.
Arguments arg_biomass_equation {Medium} _.
Arguments arg_uptake_secretion_reactions {Medium} _.

Section Media.
(** The medium is built by [PyFBA.parse.read_media_file] and
    [correct_media_names]; the notebook only asks it [c in media]. *)
Variable Medium : Type.
Variable in_media : Compound → Medium → bool.
Context {order : DictOrder}.

(** The inner loop of cell 9. *)
Definition scan_media (media : Medium) (cs : list Compound) : bool :=
  fold_left (λ is_media_component c,
               if in_media c media then true else is_media_component)
            cs false.

(** One iteration of [for u in uptake_secretion_reactions].  The two
    assignments write through [reactions[u]] and through the reference
    stored in [uptake_secretion_reactions[u]]; to follow a reference is to
    read the slot of the store that it names. *)
Definition reconcile_body (boundary : gmap string ref) (media : Medium)
    (rs : gmap string Reaction) (u : string) : result (gmap string Reaction) :=
  p ← getitem boundary u;
  o ← getitem rs p;
  if negb (scan_media media (all_compounds o)) then
    o1 ← getitem rs u;
    let rs1 := <[u := set_lower_bound float_zero o1]> rs in
    p2 ← getitem boundary u;
    o2 ← getitem rs1 p2;
    mret (<[p2 := set_lower_bound float_zero o2]> rs1)
  else mret rs.

Definition reconcile_over (us : list string) (boundary : gmap string ref)
    (media : Medium) (rs : gmap string Reaction)
  : result (gmap string Reaction) :=
  for_each (reconcile_body boundary media) us rs.

Definition reconcile (boundary : gmap string ref) (media : Medium)
    (rs : gmap string Reaction) : result (gmap string Reaction) :=
  reconcile_over (dict_keys boundary) boundary media rs.

(** The notebook from cell 3 to the call in cell 10.  [Ok call] means
    that [run_fba] is called with the arguments [call]; [Raise e] means
    that the notebook stops with [e] before it calls the solver. *)
Definition notebook (sbml : SBML) (media : Medium) : result (fba_call Medium) :=
  cl ← classify (reactions sbml);
  filtered_compounds ← filter_compounds (compounds sbml);
  rs ← reconcile (uptake_secretion_reactions cl) media (cl_reactions cl);
  mret {| arg_compounds := filtered_compounds;
          arg_reactions := rs;
          arg_reactions_to_run := reactions_to_run cl;
          arg_media := media;
          arg_biomass_equation := biomass_equation cl;
          arg_uptake_secretion_reactions := uptake_secretion_reactions cl |}.

End Media.

Arguments scan_media {Medium} in_media media cs.
Arguments reconcile_body {Medium} in_media boundary media rs u.
Arguments reconcile_over {Medium} in_media us boundary media rs.
Arguments reconcile {Medium} in_media {_} boundary media rs.
Arguments notebook {Medium} in_media {_} sbml media.

(** ** Cells 4, 6 and 7: the sizes that are printed *)

(** The numbers that the three cells format into their lines, in the order
    in which they are printed; the text around the numbers is left out. *)
Record report : Type := {
  n_reactions : nat;
  n_uptake_secretion_reactions : nat;
  n_reactions_to_run : nat;
  n_all_compounds : nat;
  n_filtered_compounds : nat;
  matrix_reactions : nat;
  matrix_compounds : nat
}.

(** Cells 3 to 7: [len(reactions)], [len(uptake_secretion_reactions)] and
    [len(reactions_to_run)] in cell 4, [len(all_compounds)] and
    [len(filtered_compounds)] in cell 6, [len(reactions_to_run)] and
    [len(filtered_compounds)] in cell 7. *)
Definition notebook_report {order : DictOrder} (sbml : SBML) : result report :=
  cl ← classify (reactions sbml);
  filtered_compounds ← filter_compounds (compounds sbml);
  mret {| n_reactions := size (cl_reactions cl);
          n_uptake_secretion_reactions := size (uptake_secretion_reactions cl);
          n_reactions_to_run := size (reactions_to_run cl);
          n_all_compounds := size (compounds sbml);
          n_filtered_compounds := size filtered_compounds;
          matrix_reactions := size (reactions_to_run cl);
          matrix_compounds := size filtered_compounds |}.

(** * Notions used to state and prove the properties *)

(** ** The classification *)

(** The three ways the loop body can treat a reaction object. *)
Inductive category : Type := Biomass | Boundary | Runnable.

#[global] Instance category_eq_dec : EqDecision category.
Proof. solve_decision. Defined.

Definition category_of (o : Reaction) : category :=
  if is_biomass o then Biomass
  else if scan_boundary (all_compounds o) then Boundary
  else Runnable.

Definition category_at (rs : gmap string Reaction) (k : string)
  : option category :=
  category_of <$> rs !! k.

(** What the loop does to the object it visits. *)
Definition mark (o : Reaction) : Reaction :=
  match category_of o with
  | Boundary => set_is_uptake_secretion true o
  | _ => o
  end.

(** The loop invariant: the state after the keys [ks] have been visited,
    in terms of the store [rs0] the loop started from. *)
Record classified_upto (rs0 : gmap string Reaction) (ks : list string)
    (st : classifier_state) : Prop := {
  upto_store : ∀ k,
    cl_reactions st !! k
    = (λ o, if decide (k ∈ ks) then mark o else o) <$> rs0 !! k;
  upto_run : ∀ k,
    k ∈ reactions_to_run st ↔ k ∈ ks ∧ category_at rs0 k = Some Runnable;
  upto_boundary : ∀ k,
    uptake_secretion_reactions st !! k
    = if decide (k ∈ ks ∧ category_at rs0 k = Some Boundary)
      then Some k else None;
  upto_biomass :
    biomass_equation st
    = last (filter (λ k, category_at rs0 k = Some Biomass) ks)
}.

(** The state the classification cell ends in, in terms of the store it
    was given. *)
Record classified {order : DictOrder} (rs : gmap string Reaction)
    (st : classifier_state) : Prop := {
  cl_store : cl_reactions st = mark <$> rs;
  cl_run : ∀ k, k ∈ reactions_to_run st ↔ category_at rs k = Some Runnable;
  cl_boundary : ∀ k,
    uptake_secretion_reactions st !! k
    = if decide (category_at rs k = Some Boundary) then Some k else None;
  cl_biomass :
    biomass_equation st
    = last (filter (λ k, category_at rs k = Some Biomass) (dict_keys rs))
}.

(** The ids named by [biomass_equation]: one id, or none for [None]. *)
Definition biomass_ids (st : classifier_state) : gset string :=
  match biomass_equation st with
  | Some r => {[r]}
  | None => ∅
  end.

(** [boundary], [runnable] and [{biomass}] partition the reaction ids. *)
Definition partitions (rs : gmap string Reaction) (st : classifier_state)
  : Prop :=
  dom (uptake_secretion_reactions st) ## reactions_to_run st
  ∧ dom (uptake_secretion_reactions st) ## biomass_ids st
  ∧ reactions_to_run st ## biomass_ids st
  ∧ dom (uptake_secretion_reactions st) ∪ reactions_to_run st ∪ biomass_ids st
    = dom rs.

(** At most one reaction of the model has a name with the biomass marker. *)
Definition at_most_one_biomass (rs : gmap string Reaction) : Prop :=
  map_Forall (λ k1 o1, map_Forall (λ k2 o2,
    is_biomass o1 = true → is_biomass o2 = true → k1 = k2) rs) rs.

#[global] Instance at_most_one_biomass_dec rs : Decision (at_most_one_biomass rs).
Proof. unfold at_most_one_biomass. apply _. Defined.

(** No reaction of the model has a name with the biomass marker. *)
Definition no_biomass (rs : gmap string Reaction) : Prop :=
  map_Forall (λ _ o, is_biomass o = false) rs.

#[global] Instance no_biomass_dec rs : Decision (no_biomass rs).
Proof. unfold no_biomass. apply _. Defined.

(** ** The compound filter *)

#[global] Instance Compound_eq_dec : EqDecision Compound.
Proof. solve_decision. Defined.

(** The loop invariant: what [filtered_compounds] holds once the keys [ks]
    have been visited. *)
Definition filtered_upto (all : gmap string Compound) (ks : list string)
  : gmap string Compound :=
  filter (λ kc, kc.1 ∈ ks ∧ uptake_secretion kc.2 = false) all.

(** Every flagged compound of the compound dictionary is referred to by a
    reaction whose name does not carry the biomass marker. *)
Definition flagged_referenced (sbml : SBML) : Prop :=
  map_Forall (λ _ c,
    uptake_secretion c = true →
    map_Exists (λ _ o, is_biomass o = false ∧ c ∈ all_compounds o)
               (reactions sbml))
    (compounds sbml).

#[global] Instance flagged_referenced_dec sbml :
  Decision (flagged_referenced sbml).
Proof. unfold flagged_referenced. apply _. Defined.

(** ** The bounds *)

(** The store in which the lower bound of every object chosen by [f] is
    [0.0] and nothing else has changed. *)
Definition clamp_where (f : string → bool) (rs : gmap string Reaction)
  : gmap string Reaction :=
  map_imap (λ k o, Some (if f k then set_lower_bound float_zero o else o)) rs.

Section MediaNotions.
Context {Medium : Type} (in_media : Compound → Medium → bool).
Context {order : DictOrder}.
Implicit Types (boundary : gmap string ref) (media : Medium).
Implicit Types (rs : gmap string Reaction) (us : list string).

(** Whether the iteration for [u] finds none of the compounds of the
    object behind [boundary[u]] in the medium. *)
Definition unfed boundary media rs (u : string) : bool :=
  match boundary !! u with
  | Some p =>
      match rs !! p with
      | Some o => negb (scan_media in_media media (all_compounds o))
      | None => false
      end
  | None => false
  end.

(** Whether the iteration for [u] writes to the object in slot [k]. *)
Definition clamps boundary media rs (u k : string) : bool :=
  unfed boundary media rs u
  && (bool_decide (k = u) || bool_decide (boundary !! u = Some k)).

Definition clamped_by boundary media rs us (k : string) : bool :=
  existsb (λ u, clamps boundary media rs u k) us.

(** Whether the iteration for [u] raises no [KeyError]. *)
Definition body_ok boundary media rs (u : string) : bool :=
  match boundary !! u with
  | Some p =>
      match rs !! p with
      | Some o =>
          if negb (scan_media in_media media (all_compounds o))
          then bool_decide (is_Some (rs !! u)) else true
      | None => false
      end
  | None => false
  end.

(** What the specification says of a model without boundary reactions:
    an empty boundary dictionary makes the filter return the whole
    compound dictionary and the loop over the bounds change nothing. *)
Definition no_boundary_claim (sbml : SBML) : Prop :=
  ∀ st, classify (reactions sbml) = Ok st →
    uptake_secretion_reactions st = ∅ →
    filter_compounds (compounds sbml) = Ok (compounds sbml)
    ∧ ∀ media, reconcile in_media (uptake_secretion_reactions st) media
                 (cl_reactions st) = Ok (cl_reactions st).
End MediaNotions.

(** The boundary dictionary is a view of the store: under every key it
    holds the reference to the object the store holds under that key. *)
Definition view_of (boundary : gmap string ref) (rs : gmap string Reaction)
  : Prop :=
  map_Forall (λ u p, p = u ∧ is_Some (rs !! u)) boundary.

#[global] Instance view_of_dec boundary rs : Decision (view_of boundary rs).
Proof. unfold view_of. apply _. Defined.

Definition same_frame (o o' : Reaction) : Prop :=
  reaction_id o' = reaction_id o
  ∧ name o' = name o
  ∧ all_compounds o' = all_compounds o
  ∧ upper_bound o' = upper_bound o.

(** ** Notions of the further properties *)

(** The reactions whose names carry the biomass marker, and the compounds
    whose flag is set. *)
Definition biomass_named (rs : gmap string Reaction) : gmap string Reaction :=
  filter (λ kv, is_biomass kv.2 = true) rs.

Definition flagged (cs : gmap string Compound) : gmap string Compound :=
  filter (λ kv, uptake_secretion kv.2 = true) cs.

(** Every reference of the boundary dictionary names an object of the
    store. *)
Definition live (boundary : gmap string ref) (rs : gmap string Reaction)
  : Prop :=
  map_Forall (λ _ p, is_Some (rs !! p)) boundary.

#[global] Instance live_dec boundary rs : Decision (live boundary rs).
Proof. unfold live. apply _. Defined.

Section FurtherMediaNotions.
Context {Medium : Type} (in_media : Compound → Medium → bool).

(** Whether the pass over a view of the store clamps the object in slot
    [k]: it is a boundary reaction without a compound in the medium. *)
Definition closes (boundary : gmap string ref) (media : Medium)
    (rs : gmap string Reaction) (k : string) : bool :=
  bool_decide (is_Some (boundary !! k)) && unfed in_media boundary media rs k.

(** Everything in the first medium is in the second. *)
Definition richer (media1 media2 : Medium) : Prop :=
  ∀ c, in_media c media1 = true → in_media c media2 = true.

(** Every flagged compound of every reaction is in the medium. *)
Definition medium_covers (media : Medium) (rs : gmap string Reaction) : Prop :=
  map_Forall (λ _ o,
    Forall (λ c, uptake_secretion c = true → in_media c media = true)
           (all_compounds o)) rs.

#[global] Instance medium_covers_dec media rs :
  Decision (medium_covers media rs).
Proof. unfold medium_covers. apply _. Defined.
End FurtherMediaNotions.

(** * Example models *)

(** The order in which the keys come out of the finite map. *)
#[global] Instance trie_order : DictOrder.
Proof.
  refine {| dict_keys := λ A d, (map_to_list d).*1 |}.
  - intros A d. apply NoDup_fst_map_to_list.
  - intros A d k. rewrite list_elem_of_fmap. split.
    + intros ([k' v] & -> & Hin). apply elem_of_map_to_list in Hin. eauto.
    + intros [v Hv]. exists (k, v). split; [done|].
      by apply elem_of_map_to_list.
Defined.

Definition cpd_glucose_e : Compound :=
  {| compound_id := "cpd_glc_e"; cname := "D-Glucose [e]"; uptake_secretion := true |}.
Definition cpd_glucose_c : Compound :=
  {| compound_id := "cpd_glc_c"; cname := "D-Glucose [c]"; uptake_secretion := false |}.
Definition cpd_g6p : Compound :=
  {| compound_id := "cpd_g6p"; cname := "D-glucose-6-phosphate [c]"; uptake_secretion := false |}.
Definition cpd_biomass_e : Compound :=
  {| compound_id := "cpd_bio_e"; cname := "Biomass [e]"; uptake_secretion := true |}.

(** [-1000.0] and [1000.0] *)
Definition float_minus_1000 : spec_float := S754_finite true 125 3.
Definition float_1000 : spec_float := S754_finite false 125 3.

Definition rxn_biomass : Reaction :=
  {| reaction_id := "bio1";
     name := "Biomass_Equation";
     all_compounds := [cpd_g6p; cpd_biomass_e];
     lower_bound := float_zero; upper_bound := float_1000;
     is_uptake_secretion := false |}.
Definition rxn_biomass_alt : Reaction :=
  {| reaction_id := "bio2";
     name := "core BIOMASS_EQUATION (alternative)";
     all_compounds := [cpd_g6p];
     lower_bound := float_zero; upper_bound := float_1000;
     is_uptake_secretion := false |}.
Definition rxn_ex_glucose : Reaction :=
  {| reaction_id := "EX_glc";
     name := "EX_D-Glucose_e0";
     all_compounds := [cpd_glucose_e];
     lower_bound := float_minus_1000; upper_bound := float_1000;
     is_uptake_secretion := false |}.
Definition rxn_transport : Reaction :=
  {| reaction_id := "rxn_transport";
     name := "D-glucose transport";
     all_compounds := [cpd_glucose_c; cpd_glucose_e];
     lower_bound := float_minus_1000; upper_bound := float_1000;
     is_uptake_secretion := false |}.
Definition rxn_hexokinase : Reaction :=
  {| reaction_id := "rxn_hex";
     name := "hexokinase";
     all_compounds := [cpd_glucose_c; cpd_g6p];
     lower_bound := float_zero; upper_bound := float_1000;
     is_uptake_secretion := false |}.
(** An internal reaction that the loader has flagged. *)
Definition rxn_flagged : Reaction :=
  {| reaction_id := "rxn_pgi";
     name := "glucose-6-phosphate isomerase";
     all_compounds := [cpd_g6p];
     lower_bound := float_minus_1000; upper_bound := float_1000;
     is_uptake_secretion := true |}.

Definition example_compounds : gmap string Compound :=
  list_to_map [("cpd_glc_e", cpd_glucose_e); ("cpd_glc_c", cpd_glucose_c);
               ("cpd_g6p", cpd_g6p); ("cpd_bio_e", cpd_biomass_e)].

(** One biomass reaction, two boundary reactions, two reactions to run. *)
Definition example_model : SBML :=
  {| reactions := list_to_map
       [("bio1", rxn_biomass); ("EX_glc", rxn_ex_glucose);
        ("rxn_transport", rxn_transport); ("rxn_hex", rxn_hexokinase);
        ("rxn_pgi", rxn_flagged)];
     compounds := example_compounds |}.

(** Two reactions whose names carry the biomass marker. *)
Definition two_biomass_model : SBML :=
  {| reactions := list_to_map
       [("bio1", rxn_biomass); ("bio2", rxn_biomass_alt);
        ("EX_glc", rxn_ex_glucose); ("rxn_hex", rxn_hexokinase)];
     compounds := example_compounds |}.

(** No reaction whose name carries the biomass marker. *)
Definition no_objective_model : SBML :=
  {| reactions := list_to_map
       [("EX_glc", rxn_ex_glucose); ("rxn_hex", rxn_hexokinase)];
     compounds := example_compounds |}.

(** No boundary reaction, and a flagged compound that only the biomass
    reaction refers to. *)
Definition no_boundary_model : SBML :=
  {| reactions := list_to_map
       [("bio1", rxn_biomass); ("rxn_hex", rxn_hexokinase)];
     compounds := list_to_map
       [("cpd_glc_c", cpd_glucose_c); ("cpd_g6p", cpd_g6p);
        ("cpd_bio_e", cpd_biomass_e)] |}.

(** No boundary reaction and no flagged compound; the compound
    [cpd_biomass_c] is referred to by the biomass reaction only. *)
Definition cpd_biomass_c : Compound :=
  {| compound_id := "cpd_bio_c"; cname := "Biomass [c]";
     uptake_secretion := false |}.
Definition rxn_biomass_internal : Reaction :=
  {| reaction_id := "bio1";
     name := "biomass_equation";
     all_compounds := [cpd_g6p; cpd_biomass_c];
     lower_bound := float_zero; upper_bound := float_1000;
     is_uptake_secretion := false |}.
Definition internal_model : SBML :=
  {| reactions := list_to_map
       [("bio1", rxn_biomass_internal); ("rxn_hex", rxn_hexokinase)];
     compounds := list_to_map
       [("cpd_glc_c", cpd_glucose_c); ("cpd_g6p", cpd_g6p);
        ("cpd_bio_c", cpd_biomass_c)] |}.

(** A medium given by the names of its compounds. *)
Definition name_in_media (c : Compound) (media : list string) : bool :=
  bool_decide (cname c ∈ media).

(** The state in which the classification of [example_model] ends. *)
Definition example_classified : classifier_state :=
  {| cl_reactions := list_to_map
       [("bio1", rxn_biomass);
        ("EX_glc", set_is_uptake_secretion true rxn_ex_glucose);
        ("rxn_transport", set_is_uptake_secretion true rxn_transport);
        ("rxn_hex", rxn_hexokinase); ("rxn_pgi", rxn_flagged)];
     reactions_to_run := {["rxn_hex"; "rxn_pgi"]};
     uptake_secretion_reactions := list_to_map
       [("EX_glc", "EX_glc"); ("rxn_transport", "rxn_transport")];
     biomass_equation := Some "bio1" |}.

(** The keys in the opposite order. *)
Definition reversed_order : DictOrder.
Proof.
  refine {| dict_keys := λ A d, reverse (map_to_list d).*1 |}.
  - intros A d. rewrite reverse_Permutation. apply NoDup_fst_map_to_list.
  - intros A d k. rewrite elem_of_reverse.
    apply (elem_of_dict_keys (DictOrder := trie_order)).
Defined.

(** A boundary dictionary with a key that the reaction dictionary lacks:
    [uptake_secretion_reactions["EX_glc_copy"] = reactions["EX_glc"]]. *)
Definition aliased_boundary : gmap string ref :=
  list_to_map [("EX_glc", "EX_glc"); ("EX_glc_copy", "EX_glc")].

(** * Properties *)

Section Properties.
Context {order : DictOrder}.

(** ** The result monad, loops and dictionaries *)

Lemma Ok_inj {A : Type} (a b : A) : Ok a = Ok b → a = b.
Proof. by intros [= ->]. Qed.

Lemma for_each_snoc {S K : Type} (body : S → K → result S) ks k st :
  for_each body (ks ++ [k]) st = for_each body ks st ≫= λ st', body st' k.
Proof.
  revert st. induction ks as [|k0 ks IH]; intros st; simpl.
  - destruct (body st k); done.
  - destruct (body st k0) as [st1|e]; simpl; [apply IH | done].
Qed.

Lemma forallb_pointwise {A : Type} (f g : A → bool) (l : list A) :
  (∀ x, f x = g x) → forallb f l = forallb g l.
Proof. intros H. induction l as [|x l IH]; simpl; [done|]. by rewrite H, IH. Qed.

(** ** The two inner loops are existence tests *)

Lemma fold_flag_existsb {A : Type} (p : A → bool) (l : list A) (b : bool) :
  fold_left (λ acc x, if p x then true else acc) l b = b || existsb p l.
Proof.
  revert b. induction l as [|x l IH]; intros b; simpl.
  - by rewrite orb_false_r.
  - rewrite IH. destruct (p x), b; done.
Qed.

Lemma scan_boundary_true cs :
  scan_boundary cs = true ↔ ∃ c, c ∈ cs ∧ uptake_secretion c = true.
Proof.
  unfold scan_boundary. rewrite fold_flag_existsb. simpl.
  rewrite existsb_exists. setoid_rewrite list_elem_of_In. done.
Qed.

Lemma scan_boundary_false cs :
  scan_boundary cs = false ↔ ∀ c, c ∈ cs → uptake_secretion c = false.
Proof.
  rewrite <- not_true_iff_false, scan_boundary_true. split.
  - intros H c Hc. destruct (uptake_secretion c) eqn:E; [|done].
    destruct H. eauto.
  - intros H (c & Hc & E). rewrite (H c Hc) in E. done.
Qed.

(** ** The classification loop *)

Lemma category_of_mark o : category_of (mark o) = category_of o.
Proof. unfold mark. destruct (category_of o) eqn:E; done. Qed.

Lemma mark_idemp o : mark (mark o) = mark o.
Proof.
  unfold mark at 1. rewrite category_of_mark. unfold mark.
  destruct (category_of o); done.
Qed.

Lemma mark_fixed o : category_of o ≠ Boundary → mark o = o.
Proof. unfold mark. destruct (category_of o); done. Qed.

Lemma category_at_Biomass rs k :
  category_at rs k = Some Biomass
  ↔ ∃ o, rs !! k = Some o ∧ is_biomass o = true.
Proof.
  unfold category_at, category_of. split.
  - destruct (rs !! k) as [o|]; [|done]. simpl. intros H. exists o.
    split; [done|]. destruct (is_biomass o); [done|].
    by destruct (scan_boundary _).
  - intros (o & -> & Ho). simpl. by rewrite Ho.
Qed.

Lemma category_at_Boundary rs k :
  category_at rs k = Some Boundary
  ↔ ∃ o, rs !! k = Some o ∧ is_biomass o = false
         ∧ scan_boundary (all_compounds o) = true.
Proof.
  unfold category_at, category_of. split.
  - destruct (rs !! k) as [o|]; [|done]. simpl. intros H. exists o.
    split; [done|]. destruct (is_biomass o); [done|].
    by destruct (scan_boundary _).
  - intros (o & -> & Hb & Ho). simpl. by rewrite Hb, Ho.
Qed.

Lemma category_at_Runnable rs k :
  category_at rs k = Some Runnable
  ↔ ∃ o, rs !! k = Some o ∧ is_biomass o = false
         ∧ scan_boundary (all_compounds o) = false.
Proof.
  unfold category_at, category_of. split.
  - destruct (rs !! k) as [o|]; [|done]. simpl. intros H. exists o.
    split; [done|]. destruct (is_biomass o); [done|].
    by destruct (scan_boundary _).
  - intros (o & -> & Hb & Ho). simpl. by rewrite Hb, Ho.
Qed.

Lemma category_at_Some rs k c :
  category_at rs k = Some c → k ∈ dict_keys rs.
Proof.
  unfold category_at. intros H. apply elem_of_dict_keys.
  destruct (rs !! k); [eauto|done].
Qed.

Lemma classify_body_Ok st k o :
  cl_reactions st !! k = Some o →
  classify_body st k = Ok
    match category_of o with
    | Biomass =>
        {| cl_reactions := cl_reactions st;
           reactions_to_run := reactions_to_run st;
           uptake_secretion_reactions := uptake_secretion_reactions st;
           biomass_equation := Some k |}
    | Boundary =>
        {| cl_reactions := <[k := mark o]> (cl_reactions st);
           reactions_to_run := reactions_to_run st;
           uptake_secretion_reactions :=
             <[k := k]> (uptake_secretion_reactions st);
           biomass_equation := biomass_equation st |}
    | Runnable =>
        {| cl_reactions := cl_reactions st;
           reactions_to_run := {[k]} ∪ reactions_to_run st;
           uptake_secretion_reactions := uptake_secretion_reactions st;
           biomass_equation := biomass_equation st |}
    end.
Proof.
  intros Hk. unfold classify_body, getitem, mark, category_of.
  rewrite Hk. simpl.
  destruct (is_biomass o); [done|].
  destruct (scan_boundary (all_compounds o)); done.
Qed.

Lemma classified_upto_init rs0 : classified_upto rs0 [] (classify_init rs0).
Proof.
  split; simpl.
  - intros k. by destruct (rs0 !! k).
  - intros k. rewrite elem_of_nil, elem_of_empty. tauto.
  - intros k. by rewrite lookup_empty.
  - done.
Qed.

Lemma classified_upto_step rs0 ks st k :
  classified_upto rs0 ks st → is_Some (rs0 !! k) →
  ∃ st', classify_body st k = Ok st' ∧ classified_upto rs0 (ks ++ [k]) st'.
Proof.
  intros [Hs Hr Hb Hm] [o0 Ho0].
  pose proof (Hs k) as Hk. rewrite Ho0 in Hk. simpl in Hk.
  assert (Hat : category_at rs0 k = Some (category_of o0)).
  { unfold category_at. by rewrite Ho0. }
  assert (Hother : ∀ k', k' ≠ k →
    (λ o', if decide (k' ∈ ks) then mark o' else o') <$> rs0 !! k'
    = (λ o', if decide (k' ∈ ks ++ [k]) then mark o' else o') <$> rs0 !! k').
  { intros k' Hne. destruct (rs0 !! k'); simpl; [|done]. f_equal.
    apply decide_ext. rewrite elem_of_app, list_elem_of_singleton. tauto. }
  eexists. split; [by apply classify_body_Ok|].
  match goal with |- context [category_of ?o] =>
    assert (Hcat : category_of o = category_of o0)
      by (case_decide; [apply category_of_mark|done]);
    assert (Hmk : mark o = mark o0)
      by (case_decide; [apply mark_idemp|done])
  end.
  rewrite Hcat, Hmk. clear Hcat Hmk Hk.
  destruct (category_of o0) eqn:Ecat; split; simpl.
  - intros k'. rewrite Hs. destruct (decide (k' = k)) as [->|Hne];
      [|by apply Hother].
    rewrite Ho0. simpl. f_equal. rewrite mark_fixed by congruence.
    by repeat case_decide.
  - intros k'. rewrite Hr, elem_of_app. split; [tauto|].
    intros [Hin Hc]. split; [|done].
    destruct Hin as [?|Hin]; [done|].
    apply list_elem_of_singleton in Hin as ->. congruence.
  - intros k'. rewrite Hb. apply decide_ext.
    rewrite elem_of_app, list_elem_of_singleton. split; [tauto|].
    intros [[?| ->] ?]; [tauto|congruence].
  - rewrite filter_app, filter_cons, filter_nil.
    rewrite decide_True by done. by rewrite last_snoc.
  - intros k'. destruct (decide (k' = k)) as [->|Hne].
    + rewrite lookup_insert_eq, Ho0. simpl. f_equal.
      case_decide as Hn; [done|]. destruct Hn.
      rewrite elem_of_app, list_elem_of_singleton. tauto.
    + rewrite lookup_insert_ne by done. rewrite Hs. by apply Hother.
  - intros k'. rewrite Hr, elem_of_app. split; [tauto|].
    intros [Hin Hc]. split; [|done].
    destruct Hin as [?|Hin]; [done|].
    apply list_elem_of_singleton in Hin as ->. congruence.
  - intros k'. destruct (decide (k' = k)) as [->|Hne].
    + rewrite lookup_insert_eq. case_decide as Hn; [done|]. destruct Hn.
      rewrite elem_of_app, list_elem_of_singleton, Hat. tauto.
    + rewrite lookup_insert_ne by done. rewrite Hb. apply decide_ext.
      rewrite elem_of_app, list_elem_of_singleton. tauto.
  - rewrite filter_app, filter_cons, filter_nil.
    rewrite decide_False by congruence. by rewrite app_nil_r.
  - intros k'. rewrite Hs. destruct (decide (k' = k)) as [->|Hne];
      [|by apply Hother].
    rewrite Ho0. simpl. f_equal. rewrite mark_fixed by congruence.
    by repeat case_decide.
  - intros k'. rewrite elem_of_union, elem_of_singleton, Hr.
    split.
    + rewrite elem_of_app, list_elem_of_singleton. intros [->|[? ?]]; tauto.
    + rewrite elem_of_app, list_elem_of_singleton. tauto.
  - intros k'. rewrite Hb. apply decide_ext.
    rewrite elem_of_app, list_elem_of_singleton. split; [tauto|].
    intros [[?| ->] ?]; [tauto|congruence].
  - rewrite filter_app, filter_cons, filter_nil.
    rewrite decide_False by congruence. by rewrite app_nil_r.
Qed.

Lemma classify_over_spec rs0 ks :
  (∀ k, k ∈ ks → is_Some (rs0 !! k)) →
  ∃ st, classify_over ks rs0 = Ok st ∧ classified_upto rs0 ks st.
Proof.
  unfold classify_over. induction ks as [|k ks IH] using rev_ind; intros Hks.
  - exists (classify_init rs0). split; [done|apply classified_upto_init].
  - destruct IH as (st & Hrun & Hinv).
    { intros k' Hk'. apply Hks. rewrite elem_of_app. tauto. }
    destruct (classified_upto_step rs0 ks st k Hinv) as (st' & Hbody & Hinv').
    { apply Hks. rewrite elem_of_app, list_elem_of_singleton. tauto. }
    exists st'. split; [|done]. rewrite for_each_snoc, Hrun. done.
Qed.

Lemma classify_spec rs : ∃ st, classify rs = Ok st ∧ classified rs st.
Proof.
  destruct (classify_over_spec rs (dict_keys rs)) as (st & Hrun & [Hs Hr Hb Hm]).
  { intros k. apply elem_of_dict_keys. }
  exists st. split; [done|]. split.
  - apply map_eq. intros k. rewrite Hs, lookup_fmap.
    destruct (rs !! k) eqn:E; simpl; [|done].
    rewrite decide_True; [done|]. apply elem_of_dict_keys. eauto.
  - intros k. rewrite Hr. split; [tauto|].
    intros H. split; [|done]. by eapply category_at_Some.
  - intros k. rewrite Hb. apply decide_ext. split; [tauto|].
    intros H. split; [|done]. by eapply category_at_Some.
  - done.
Qed.

Lemma classify_total rs : ∃ st, classify rs = Ok st.
Proof. destruct (classify_spec rs) as (st & H & _). eauto. Qed.

Lemma classify_deterministic rs st :
  classify rs = Ok st → classified rs st.
Proof.
  intros H. destruct (classify_spec rs) as (st' & H' & Hcl). congruence.
Qed.

Lemma classified_boundary_dom rs st k :
  classified rs st →
  k ∈ dom (uptake_secretion_reactions st) ↔ category_at rs k = Some Boundary.
Proof.
  intros [_ _ Hb _]. rewrite elem_of_dom, Hb.
  case_decide; split; by try intros [? ?].
Qed.

Lemma classified_biomass rs st r :
  classified rs st →
  biomass_equation st = Some r → category_at rs r = Some Biomass.
Proof.
  intros [_ _ _ Hm] Hr. rewrite Hm in Hr.
  apply last_Some_elem_of in Hr.
  apply list_elem_of_filter in Hr. tauto.
Qed.

Lemma classified_no_biomass rs st :
  classified rs st → no_biomass rs → biomass_equation st = None.
Proof.
  intros Hcl Hno. destruct (biomass_equation st) as [r|] eqn:Er; [|done].
  apply (classified_biomass rs st r Hcl) in Er.
  apply category_at_Biomass in Er as (o & Ho & Hb).
  rewrite (Hno r o Ho) in Hb. done.
Qed.

(** With at most one biomass reaction, [biomass_equation] names it. *)
Lemma classified_biomass_unique rs st k :
  classified rs st → at_most_one_biomass rs →
  category_at rs k = Some Biomass → biomass_equation st = Some k.
Proof.
  intros Hcl Hone Hk.
  destruct (biomass_equation st) as [r|] eqn:Er.
  - pose proof (classified_biomass rs st r Hcl Er) as Hr.
    apply category_at_Biomass in Hk as (o & Ho & Hbo).
    apply category_at_Biomass in Hr as (o' & Ho' & Hbo').
    f_equal. by apply (Hone r o' Ho' k o Ho).
  - destruct Hcl as [_ _ _ Hm]. rewrite Hm in Er. apply last_None in Er.
    assert (k ∈ filter (λ k, category_at rs k = Some Biomass) (dict_keys rs))
      as Hin.
    { apply list_elem_of_filter. split; [done|]. by eapply category_at_Some. }
    rewrite Er in Hin. by apply elem_of_nil in Hin.
Qed.

Lemma classified_biomass_ids rs st k :
  classified rs st →
  k ∈ biomass_ids st → category_at rs k = Some Biomass.
Proof.
  intros Hcl. unfold biomass_ids.
  destruct (biomass_equation st) as [r|] eqn:Er.
  - intros ->%elem_of_singleton. by eapply classified_biomass.
  - by intros ?%elem_of_empty.
Qed.

Lemma classified_disjoint rs st :
  classified rs st →
  dom (uptake_secretion_reactions st) ## reactions_to_run st
  ∧ dom (uptake_secretion_reactions st) ## biomass_ids st
  ∧ reactions_to_run st ## biomass_ids st.
Proof.
  intros Hcl. repeat split; intros k H1 H2.
  - apply (classified_boundary_dom rs st k Hcl) in H1.
    apply (cl_run rs st Hcl) in H2. congruence.
  - apply (classified_boundary_dom rs st k Hcl) in H1.
    apply (classified_biomass_ids rs st k Hcl) in H2. congruence.
  - apply (cl_run rs st Hcl) in H1.
    apply (classified_biomass_ids rs st k Hcl) in H2. congruence.
Qed.

Lemma classified_covered rs st :
  classified rs st →
  dom (uptake_secretion_reactions st) ∪ reactions_to_run st ∪ biomass_ids st
  ⊆ dom rs.
Proof.
  intros Hcl k Hk. apply elem_of_dom, elem_of_dict_keys.
  apply elem_of_union in Hk as [Hk|Hk]; [apply elem_of_union in Hk as [Hk|Hk]|].
  - apply (classified_boundary_dom rs st k Hcl) in Hk.
    by eapply category_at_Some.
  - apply (cl_run rs st Hcl) in Hk. by eapply category_at_Some.
  - apply (classified_biomass_ids rs st k Hcl) in Hk.
    by eapply category_at_Some.
Qed.

Lemma classified_view rs st :
  classified rs st →
  view_of (uptake_secretion_reactions st) (cl_reactions st).
Proof.
  intros Hcl u p Hp. rewrite (cl_boundary rs st Hcl) in Hp.
  case_decide as Hcat; [|done]. split; [congruence|].
  rewrite (cl_store rs st Hcl), lookup_fmap, fmap_is_Some.
  apply elem_of_dict_keys. by eapply category_at_Some.
Qed.

(** ** The classification: claims *)

(** Whatever the order of the loop, of two reactions whose names carry
    the biomass marker one is in none of the three sets. *)
Lemma two_biomass_any_order :
  ¬ ∃ st, classify (reactions two_biomass_model) = Ok st
          ∧ partitions (reactions two_biomass_model) st.
Proof.
  intros (st & Hrun & _ & _ & _ & Hu).
  apply classify_deterministic in Hrun as Hcl.
  assert (Hids : ∀ k, category_at (reactions two_biomass_model) k = Some Biomass →
                      k ∈ biomass_ids st).
  { intros k Hcat.
    assert (Hin : k ∈ dom (reactions two_biomass_model)).
    { apply elem_of_dom, elem_of_dict_keys. by eapply category_at_Some. }
    rewrite <- Hu in Hin.
    apply elem_of_union in Hin as [Hin|Hin]; [|done].
    apply elem_of_union in Hin as [Hin|Hin].
    - apply (classified_boundary_dom _ _ _ Hcl) in Hin. congruence.
    - apply (cl_run _ _ Hcl) in Hin. congruence. }
  pose proof (Hids "bio1" eq_refl) as H1.
  pose proof (Hids "bio2" eq_refl) as H2.
  unfold biomass_ids in H1, H2. destruct (biomass_equation st) as [r|].
  - apply elem_of_singleton in H1, H2. congruence.
  - by apply elem_of_empty in H1.
Qed.

(** C1: in every model, which by the data model has at most one reaction
    with the biomass marker in its name, the keys of the boundary
    dictionary, the set of reactions to run and the id named by
    [biomass_equation] (no id for [None]) are pairwise disjoint, and
    together they are all the reaction ids of the model. *)
Theorem classify_partitions (rs : gmap string Reaction) :
  at_most_one_biomass rs →
  ∃ st, classify rs = Ok st ∧ partitions rs st.
Proof.
  intros Hone. destruct (classify_spec rs) as (st & Hrun & Hcl).
  exists st. split; [done|].
  destruct (classified_disjoint rs st Hcl) as (D1 & D2 & D3).
  repeat split; try done.
  apply set_eq. intros k. split; [apply (classified_covered rs st Hcl)|].
  intros [o Ho]%elem_of_dom.
  assert (Hat : category_at rs k = Some (category_of o))
    by (unfold category_at; by rewrite Ho).
  destruct (category_of o).
  - apply elem_of_union_r. unfold biomass_ids.
    rewrite (classified_biomass_unique rs st k Hcl Hone Hat).
    by apply elem_of_singleton.
  - apply elem_of_union_l, elem_of_union_l.
    by apply (classified_boundary_dom rs st k Hcl).
  - apply elem_of_union_l, elem_of_union_r. by apply (cl_run rs st Hcl).
Qed.

(** C3: a reaction whose name does not carry the biomass marker is put
    into the boundary dictionary exactly when one of its compounds has the
    uptake/secretion flag set; it is then stored there as a reference to
    the object of the store, whose own flag has been set; otherwise, and
    only then, its id is added to the reactions to run. *)
Theorem classify_boundary_iff (rs : gmap string Reaction) (r : string)
    (o : Reaction) :
  rs !! r = Some o → is_biomass o = false →
  ∃ st, classify rs = Ok st
    ∧ (r ∈ dom (uptake_secretion_reactions st)
       ↔ ∃ c, c ∈ all_compounds o ∧ uptake_secretion c = true)
    ∧ (r ∈ dom (uptake_secretion_reactions st) →
       uptake_secretion_reactions st !! r = Some r
       ∧ is_uptake_secretion <$> cl_reactions st !! r = Some true)
    ∧ (r ∈ reactions_to_run st ↔ r ∉ dom (uptake_secretion_reactions st)).
Proof.
  intros Ho Hbio. destruct (classify_spec rs) as (st & Hrun & Hcl).
  exists st. split; [done|].
  pose proof (classified_boundary_dom rs st r Hcl) as Hdom.
  assert (Hat : category_at rs r = Some (category_of o))
    by (unfold category_at; by rewrite Ho).
  split; [|split].
  - rewrite Hdom, category_at_Boundary, <- scan_boundary_true. split.
    + intros (o' & Ho' & _ & Hs). congruence.
    + intros Hs. eauto.
  - intros Hin. apply Hdom in Hin as Hb. split.
    + rewrite (cl_boundary rs st Hcl). by rewrite decide_True.
    + rewrite (cl_store rs st Hcl), lookup_fmap, Ho. simpl.
      unfold mark. assert (category_of o = Boundary) as -> by congruence.
      done.
  - rewrite (cl_run rs st Hcl), Hdom, Hat. unfold category_of. rewrite Hbio.
    destruct (scan_boundary (all_compounds o)); split; congruence.
Qed.

(** C4: [biomass_equation] is the one reaction whose lower-cased name
    contains [biomass_equation], and [None] when there is no such
    reaction; the reaction it names is in neither the boundary dictionary
    nor the set of reactions to run. *)
Theorem classify_biomass (rs : gmap string Reaction) :
  ∃ st, classify rs = Ok st
    ∧ (no_biomass rs → biomass_equation st = None)
    ∧ (∀ r o, rs !! r = Some o → is_biomass o = true →
         at_most_one_biomass rs → biomass_equation st = Some r)
    ∧ (∀ r, biomass_equation st = Some r →
         (∃ o, rs !! r = Some o ∧ is_biomass o = true)
         ∧ (r ∉ dom (uptake_secretion_reactions st))
         ∧ (r ∉ reactions_to_run st)).
Proof.
  destruct (classify_spec rs) as (st & Hrun & Hcl).
  exists st. split; [done|]. split; [|split].
  - by apply classified_no_biomass.
  - intros r o Ho Hb Hone.
    apply (classified_biomass_unique rs st r Hcl Hone).
    apply category_at_Biomass. eauto.
  - intros r Er. pose proof (classified_biomass rs st r Hcl Er) as Hcat.
    split; [by apply category_at_Biomass|]. split.
    + rewrite (classified_boundary_dom rs st r Hcl). congruence.
    + rewrite (cl_run rs st Hcl). congruence.
Qed.

(** C10: the classifier never clears a flag.  A reaction object whose flag
    the loader has set keeps it; a reaction whose name does not carry the
    biomass marker and none of whose compounds is flagged is added to the
    reactions to run and its object is left as the loader gave it.  So a
    reaction to run can have its own flag set. *)
Theorem classify_keeps_flag :
  (∀ rs : gmap string Reaction, ∃ st, classify rs = Ok st
     ∧ (∀ r o, rs !! r = Some o → is_uptake_secretion o = true →
          is_uptake_secretion <$> cl_reactions st !! r = Some true)
     ∧ (∀ r o, rs !! r = Some o → is_biomass o = false →
          (∀ c, c ∈ all_compounds o → uptake_secretion c = false) →
          r ∈ reactions_to_run st ∧ cl_reactions st !! r = Some o))
  ∧ (∃ rs st r, classify rs = Ok st ∧ r ∈ reactions_to_run st
       ∧ is_uptake_secretion <$> cl_reactions st !! r = Some true).
Proof.
  assert (Hall : ∀ rs : gmap string Reaction, ∃ st, classify rs = Ok st
     ∧ (∀ r o, rs !! r = Some o → is_uptake_secretion o = true →
          is_uptake_secretion <$> cl_reactions st !! r = Some true)
     ∧ (∀ r o, rs !! r = Some o → is_biomass o = false →
          (∀ c, c ∈ all_compounds o → uptake_secretion c = false) →
          r ∈ reactions_to_run st ∧ cl_reactions st !! r = Some o)).
  { intros rs. destruct (classify_spec rs) as (st & Hrun & Hcl).
    exists st. split; [done|]. split.
    - intros r o Ho Hflag.
      rewrite (cl_store rs st Hcl), lookup_fmap, Ho. simpl. f_equal.
      unfold mark. by destruct (category_of o).
    - intros r o Ho Hbio Hcs. apply scan_boundary_false in Hcs.
      assert (category_at rs r = Some Runnable) as Hcat.
      { apply category_at_Runnable. eauto. }
      split; [by apply (cl_run rs st Hcl)|].
      rewrite (cl_store rs st Hcl), lookup_fmap, Ho. simpl. f_equal.
      apply mark_fixed. unfold category_at in Hcat. rewrite Ho in Hcat.
      simpl in Hcat. congruence. }
  split; [exact Hall|].
  destruct (Hall (reactions example_model)) as (st & Hrun & Hkeep & Hleft).
  exists (reactions example_model), st, "rxn_pgi".
  split; [done|]. split.
  - apply (Hleft "rxn_pgi" rxn_flagged); [done|done|].
    intros c Hc. apply list_elem_of_singleton in Hc as ->. done.
  - by apply (Hkeep "rxn_pgi" rxn_flagged).
Qed.

(** ** The compound filter *)

Lemma filter_body_step all ks c :
  is_Some (all !! c) →
  filter_body all (filtered_upto all ks) c = Ok (filtered_upto all (ks ++ [c])).
Proof.
  intros [o Ho]. unfold filter_body, getitem. rewrite Ho. simpl.
  destruct (uptake_secretion o) eqn:Eo; simpl; f_equal.
  - apply map_eq. intros k. apply option_eq. intros x.
    unfold filtered_upto. rewrite !map_lookup_filter_Some. simpl.
    rewrite elem_of_app, list_elem_of_singleton.
    split; [tauto|]. intros (Hk & [?| ->] & Hx); [tauto|]. congruence.
  - apply map_eq. intros k. apply option_eq. intros x.
    destruct (decide (k = c)) as [->|Hne].
    + rewrite lookup_insert_eq. unfold filtered_upto.
      rewrite map_lookup_filter_Some. simpl.
      rewrite elem_of_app, list_elem_of_singleton.
      split; [intros [= <-]; tauto|]. intros (Hk & _ & _). congruence.
    + rewrite lookup_insert_ne by done. unfold filtered_upto.
      rewrite !map_lookup_filter_Some. simpl.
      rewrite elem_of_app, list_elem_of_singleton. tauto.
Qed.

Lemma filter_over_spec all ks :
  (∀ k, k ∈ ks → is_Some (all !! k)) →
  for_each (filter_body all) ks ∅ = Ok (filtered_upto all ks).
Proof.
  induction ks as [|c ks IH] using rev_ind; intros Hks.
  - simpl. f_equal. symmetry. apply map_eq. intros k. apply option_eq. intros x.
    unfold filtered_upto. rewrite map_lookup_filter_Some, lookup_empty. simpl.
    rewrite elem_of_nil. split; [tauto|done].
  - rewrite for_each_snoc, IH.
    + simpl. apply filter_body_step, Hks.
      rewrite elem_of_app, list_elem_of_singleton. tauto.
    + intros k Hk. apply Hks. rewrite elem_of_app. tauto.
Qed.

Lemma filter_compounds_spec all :
  filter_compounds all = Ok (filter (λ kc, uptake_secretion kc.2 = false) all).
Proof.
  unfold filter_compounds. rewrite filter_over_spec.
  - f_equal. apply map_eq. intros k. apply option_eq. intros x.
    unfold filtered_upto. rewrite !map_lookup_filter_Some. simpl.
    rewrite elem_of_dict_keys. split; [tauto|]. intros [Hk Hx]. eauto.
  - intros k. apply elem_of_dict_keys.
Qed.

(** C5: a compound id is a key of [filtered_compounds] exactly when the
    flag of its compound is not set, and every key that is kept maps to
    the entry the input has under it: the filter builds a new dictionary
    and writes to no compound object. *)
Theorem filter_compounds_keys (all : gmap string Compound) :
  ∃ filtered, filter_compounds all = Ok filtered
    ∧ (∀ c, c ∈ dom filtered
            ↔ ∃ o, all !! c = Some o ∧ uptake_secretion o = false)
    ∧ (∀ c o, filtered !! c = Some o → all !! c = Some o).
Proof.
  eexists. split; [apply filter_compounds_spec|]. split.
  - intros c. rewrite elem_of_dom. unfold is_Some.
    setoid_rewrite map_lookup_filter_Some. done.
  - intros c o Hc. apply map_lookup_filter_Some in Hc. tauto.
Qed.

(** ** The reconciliation of the bounds *)

Lemma lookup_clamp_where f rs k :
  clamp_where f rs !! k
  = (λ o, if f k then set_lower_bound float_zero o else o) <$> rs !! k.
Proof. unfold clamp_where. rewrite map_lookup_imap. by destruct (rs !! k). Qed.

Lemma clamp_where_ext f g rs :
  (∀ k, f k = g k) → clamp_where f rs = clamp_where g rs.
Proof.
  intros H. apply map_eq. intros k. rewrite !lookup_clamp_where.
  by rewrite H.
Qed.

Lemma clamp_where_none rs : clamp_where (λ _, false) rs = rs.
Proof.
  apply map_eq. intros k. rewrite lookup_clamp_where.
  by destruct (rs !! k).
Qed.

Lemma clamp_where_twice f rs :
  clamp_where f (clamp_where f rs) = clamp_where f rs.
Proof.
  apply map_eq. intros k. rewrite !lookup_clamp_where.
  destruct (rs !! k); simpl; [|done]. by destruct (f k).
Qed.

Lemma dom_clamp_where f rs : dom (clamp_where f rs) = dom rs.
Proof.
  apply set_eq. intros k. rewrite !elem_of_dom, lookup_clamp_where.
  by rewrite fmap_is_Some.
Qed.

Section MediaProperties.
Context {Medium : Type} (in_media : Compound → Medium → bool).
Implicit Types (boundary : gmap string ref) (media : Medium).
Implicit Types (rs : gmap string Reaction) (us : list string) (sbml : SBML).

Lemma scan_media_true media cs :
  scan_media in_media media cs = true
  ↔ ∃ c, c ∈ cs ∧ in_media c media = true.
Proof.
  unfold scan_media.
  rewrite (fold_flag_existsb (λ c, in_media c media)). simpl.
  rewrite existsb_exists. setoid_rewrite list_elem_of_In. done.
Qed.

Lemma scan_media_false media cs :
  scan_media in_media media cs = false
  ↔ ∀ c, c ∈ cs → in_media c media = false.
Proof.
  rewrite <- not_true_iff_false, scan_media_true. split.
  - intros H c Hc. destruct (in_media c media) eqn:E; [|done].
    destruct H. eauto.
  - intros H (c & Hc & E). rewrite (H c Hc) in E. done.
Qed.

Lemma reconcile_body_clamped boundary media rs f u :
  match reconcile_body in_media boundary media (clamp_where f rs) u with
  | Ok rs' =>
      body_ok in_media boundary media rs u = true
      ∧ rs' = clamp_where (λ k, f k || clamps in_media boundary media rs u k) rs
  | Raise _ => body_ok in_media boundary media rs u = false
  end.
Proof.
  unfold reconcile_body, body_ok, clamps, unfed, getitem.
  destruct (boundary !! u) as [p|] eqn:Ep; simpl; [|done].
  rewrite (lookup_clamp_where f rs p).
  destruct (rs !! p) as [o|] eqn:Eo; simpl; [|done].
  assert (Hcs : all_compounds (if f p then set_lower_bound float_zero o else o)
                = all_compounds o) by (by destruct (f p)).
  rewrite Hcs. clear Hcs.
  destruct (scan_media in_media media (all_compounds o)) eqn:Escan; simpl.
  { split; [done|]. apply clamp_where_ext. intros k. by rewrite orb_false_r. }
  rewrite (lookup_clamp_where f rs u).
  destruct (rs !! u) as [ou|] eqn:Eu; simpl; [|done].
  destruct (decide (p = u)) as [->|Hne].
  - rewrite lookup_insert_eq. simpl. split; [done|].
    apply map_eq. intros k. rewrite lookup_clamp_where.
    destruct (decide (k = u)) as [->|Hk].
    + rewrite lookup_insert_eq, Eu. simpl.
      rewrite (bool_decide_eq_true_2 (u = u)) by done.
      rewrite orb_true_r. by destruct (f u).
    + rewrite !lookup_insert_ne by done. rewrite lookup_clamp_where.
      rewrite (bool_decide_eq_false_2 (k = u)) by done.
      rewrite (bool_decide_eq_false_2 (Some u = Some k)) by congruence.
      by rewrite orb_false_r.
  - rewrite lookup_insert_ne by done. rewrite lookup_clamp_where, Eo. simpl.
    split; [done|].
    apply map_eq. intros k. rewrite lookup_clamp_where.
    destruct (decide (k = p)) as [->|Hkp].
    + rewrite lookup_insert_eq, Eo. simpl.
      rewrite (bool_decide_eq_true_2 (Some p = Some p)) by done.
      rewrite !orb_true_r. by destruct (f p).
    + rewrite lookup_insert_ne by done.
      rewrite (bool_decide_eq_false_2 (Some p = Some k)) by congruence.
      destruct (decide (k = u)) as [->|Hku].
      * rewrite lookup_insert_eq, Eu. simpl.
        rewrite (bool_decide_eq_true_2 (u = u)) by done.
        rewrite orb_true_r. by destruct (f u).
      * rewrite lookup_insert_ne by done. rewrite lookup_clamp_where.
        rewrite (bool_decide_eq_false_2 (k = u)) by done.
        by rewrite orb_false_r.
Qed.

Lemma clamped_by_snoc boundary media rs us u k :
  clamped_by in_media boundary media rs (us ++ [u]) k
  = clamped_by in_media boundary media rs us k || clamps in_media boundary media rs u k.
Proof.
  unfold clamped_by. rewrite existsb_app. simpl. by rewrite orb_false_r.
Qed.

(** The whole loop: it succeeds exactly when every iteration finds its
    keys, and then it has clamped the objects the iterations chose. *)
Lemma reconcile_over_spec boundary media rs us :
  match reconcile_over in_media us boundary media rs with
  | Ok rs' =>
      forallb (body_ok in_media boundary media rs) us = true
      ∧ rs' = clamp_where (clamped_by in_media boundary media rs us) rs
  | Raise _ => forallb (body_ok in_media boundary media rs) us = false
  end.
Proof.
  unfold reconcile_over. induction us as [|u us IH] using rev_ind.
  - simpl. split; [done|]. symmetry. apply clamp_where_none.
  - rewrite for_each_snoc, forallb_app. simpl.
    destruct (for_each _ us rs) as [rs1|e]; simpl.
    + destruct IH as [-> ->]. simpl.
      pose proof (reconcile_body_clamped boundary media rs
                    (clamped_by in_media boundary media rs us) u) as Hbody.
      destruct (reconcile_body _ _ _ _ u) as [rs2|e].
      * destruct Hbody as [-> ->]. split; [done|].
        apply clamp_where_ext. intros k. by rewrite clamped_by_snoc.
      * by rewrite Hbody.
    + by rewrite IH.
Qed.

(** Writes to lower bounds change neither what the loop reads to decide
    nor which keys it finds. *)
Lemma unfed_clamp_where boundary media rs f u :
  unfed in_media boundary media (clamp_where f rs) u = unfed in_media boundary media rs u.
Proof.
  unfold unfed. destruct (boundary !! u) as [p|]; [|done].
  rewrite lookup_clamp_where. destruct (rs !! p); simpl; [|done].
  by destruct (f p).
Qed.

Lemma body_ok_clamp_where boundary media rs f u :
  body_ok in_media boundary media (clamp_where f rs) u = body_ok in_media boundary media rs u.
Proof.
  unfold body_ok. destruct (boundary !! u) as [p|]; [|done].
  rewrite !lookup_clamp_where. destruct (rs !! p); simpl; [|done].
  assert (is_Some ((λ o, if f u then set_lower_bound float_zero o else o)
                     <$> rs !! u) ↔ is_Some (rs !! u)) as Hu
    by apply fmap_is_Some.
  rewrite (bool_decide_ext _ _ Hu). by destruct (f p).
Qed.

Lemma clamped_by_clamp_where boundary media rs f us k :
  clamped_by in_media boundary media (clamp_where f rs) us k
  = clamped_by in_media boundary media rs us k.
Proof.
  unfold clamped_by, clamps. induction us as [|u us IH]; simpl; [done|].
  by rewrite IH, unfed_clamp_where.
Qed.

Lemma reconcile_twice boundary media rs :
  reconcile in_media boundary media rs ≫= reconcile in_media boundary media
  = reconcile in_media boundary media rs.
Proof.
  unfold reconcile.
  pose proof (reconcile_over_spec boundary media rs (dict_keys boundary)) as H1.
  destruct (reconcile_over _ _ _ _ rs) as [rs1|e]; simpl; [|done].
  destruct H1 as [Hok ->].
  set (F := clamped_by in_media boundary media rs (dict_keys boundary)).
  pose proof (reconcile_over_spec boundary media (clamp_where F rs)
                (dict_keys boundary)) as H2.
  destruct (reconcile_over _ _ _ _ (clamp_where F rs)) as [rs2|e].
  - destruct H2 as [_ ->]. f_equal.
    rewrite (clamp_where_ext _ F) by (intros k; apply clamped_by_clamp_where).
    apply clamp_where_twice.
  - rewrite (forallb_pointwise _ (body_ok in_media boundary media rs)) in H2;
      [congruence|].
    intros u. apply body_ok_clamp_where.
Qed.

Lemma view_body_ok boundary media rs u :
  view_of boundary rs → u ∈ dict_keys boundary →
  body_ok in_media boundary media rs u = true.
Proof.
  intros Hv [p Hp]%elem_of_dict_keys. unfold body_ok. rewrite Hp.
  destruct (Hv u p Hp) as [-> [o Ho]]. rewrite Ho.
  destruct (negb _); [|done]. apply bool_decide_eq_true. eauto.
Qed.

Lemma view_clamped_by boundary media rs k :
  view_of boundary rs →
  clamped_by in_media boundary media rs (dict_keys boundary) k
  = bool_decide (is_Some (boundary !! k)) && unfed in_media boundary media rs k.
Proof.
  intros Hv. apply eq_true_iff_eq. unfold clamped_by.
  rewrite existsb_exists, andb_true_iff, bool_decide_eq_true. split.
  - intros (u & Hu & Hc). apply list_elem_of_In, elem_of_dict_keys in Hu.
    destruct Hu as [p Hp]. destruct (Hv u p Hp) as [-> _].
    unfold clamps in Hc. rewrite Hp in Hc.
    apply andb_true_iff in Hc as [Hf Hk].
    apply orb_true_iff in Hk as [Hk|Hk]; apply bool_decide_eq_true in Hk;
      simplify_eq; eauto.
  - intros [[p Hp] Hf]. exists k. split.
    + apply list_elem_of_In, elem_of_dict_keys. eauto.
    + unfold clamps. rewrite Hf. simpl.
      by rewrite (bool_decide_eq_true_2 (k = k)).
Qed.

(** The loop over a view of the store, as one equation. *)
Lemma reconcile_view boundary media rs :
  view_of boundary rs →
  reconcile in_media boundary media rs
  = Ok (clamp_where (λ k, bool_decide (is_Some (boundary !! k))
                          && unfed in_media boundary media rs k) rs).
Proof.
  intros Hv. unfold reconcile.
  pose proof (reconcile_over_spec boundary media rs (dict_keys boundary)) as H.
  destruct (reconcile_over _ _ _ _ rs) as [rs1|e].
  - destruct H as [_ ->]. f_equal. apply clamp_where_ext.
    intros k. by apply view_clamped_by.
  - assert (forallb (body_ok in_media boundary media rs) (dict_keys boundary) = true)
      as Hall; [|congruence].
    apply forallb_forall. intros u Hu%list_elem_of_In.
    by apply view_body_ok.
Qed.

Lemma reconcile_empty media rs :
  reconcile in_media ∅ media rs = Ok rs.
Proof.
  unfold reconcile.
  assert (dict_keys (∅ : gmap string string) = []) as ->; [|done].
  apply elem_of_nil_inv. intros k [p Hp]%elem_of_dict_keys.
  by rewrite lookup_empty in Hp.
Qed.

(** C2: for a boundary dictionary that is a view of the store, a boundary
    reaction none of whose compounds is in the medium has lower bound
    [0.0] after the loop, whatever it was before; one with a compound in
    the medium has both bounds as before. *)
Theorem reconcile_bounds boundary media rs (u p : string) (o : Reaction) :
  view_of boundary rs → boundary !! u = Some p → rs !! u = Some o →
  ∃ rs' o', reconcile in_media boundary media rs = Ok rs'
    ∧ rs' !! u = Some o'
    ∧ ((∀ c, c ∈ all_compounds o → in_media c media = false) →
       lower_bound o' = float_zero)
    ∧ ((∃ c, c ∈ all_compounds o ∧ in_media c media = true) →
       lower_bound o' = lower_bound o ∧ upper_bound o' = upper_bound o).
Proof.
  intros Hv Hp Ho. destruct (Hv u p Hp) as [-> _].
  rewrite (reconcile_view boundary media rs Hv).
  eexists _, _. split; [done|]. split.
  { rewrite lookup_clamp_where, Ho. simpl. done. }
  unfold unfed. rewrite Hp, Ho.
  rewrite (bool_decide_eq_true_2 (is_Some (Some u))) by eauto. simpl.
  split.
  - intros Hnone. apply scan_media_false in Hnone.
    by rewrite Hnone.
  - intros Hsome. apply scan_media_true in Hsome.
    by rewrite Hsome.
Qed.

(** C8: a second pass of the loop changes nothing: two passes in sequence
    end in the store in which one pass ends (or stop with the exception
    with which one pass stops); over a view of the store a pass does end. *)
Theorem reconcile_idempotent boundary media rs :
  (reconcile in_media boundary media rs ≫= reconcile in_media boundary media
   = reconcile in_media boundary media rs)
  ∧ (view_of boundary rs →
     ∃ rs', reconcile in_media boundary media rs = Ok rs'
            ∧ reconcile in_media boundary media rs' = Ok rs').
Proof.
  split; [apply reconcile_twice|].
  intros Hv. pose proof (reconcile_twice boundary media rs) as H.
  rewrite (reconcile_view boundary media rs Hv) in *.
  simpl in H. eauto.
Qed.

(** ** The pipeline *)

(** The notebook always reaches the call of the solver, and these are the
    arguments of the call. *)
Lemma notebook_spec sbml media :
  ∃ st, classify (reactions sbml) = Ok st
    ∧ classified (reactions sbml) st
    ∧ notebook in_media sbml media = Ok
        {| arg_compounds :=
             filter (λ kc, uptake_secretion kc.2 = false) (compounds sbml);
           arg_reactions :=
             clamp_where
               (λ k, bool_decide (is_Some (uptake_secretion_reactions st !! k))
                     && unfed in_media (uptake_secretion_reactions st) media
                          (cl_reactions st) k)
               (cl_reactions st);
           arg_reactions_to_run := reactions_to_run st;
           arg_media := media;
           arg_biomass_equation := biomass_equation st;
           arg_uptake_secretion_reactions := uptake_secretion_reactions st |}.
Proof.
  destruct (classify_spec (reactions sbml)) as (st & Hrun & Hcl).
  exists st. split; [done|]. split; [done|].
  unfold notebook. rewrite Hrun. simpl.
  rewrite filter_compounds_spec. simpl.
  rewrite (reconcile_view _ media _ (classified_view _ _ Hcl)).
  done.
Qed.

(** C6, as amended: for a model none of whose reactions has a name with
    the biomass marker, the notebook raises no error; it calls the solver
    and hands it [None] as the biomass reaction. *)
Theorem notebook_without_objective sbml media :
  no_biomass (reactions sbml) →
  ∃ call, notebook in_media sbml media = Ok call
          ∧ arg_biomass_equation call = None.
Proof.
  intros Hno. destruct (notebook_spec sbml media) as (st & Hrun & Hcl & ->).
  eexists. split; [done|]. simpl.
  by apply (classified_no_biomass (reactions sbml)).
Qed.

(** C7: from the output of the loader to the call of the solver the store
    keeps its keys, and every reaction object keeps its identifier, its
    name, its compounds and its upper bound; the compound dictionary
    handed to the solver holds entries of the loader's dictionary.  The
    fields that have been written are [is_uptake_secretion] and
    [lower_bound]. *)
Theorem notebook_frame sbml media :
  ∃ call, notebook in_media sbml media = Ok call
    ∧ dom (arg_reactions call) = dom (reactions sbml)
    ∧ (∀ r, option_Forall2 same_frame
              (reactions sbml !! r) (arg_reactions call !! r))
    ∧ (∀ r o', arg_reactions call !! r = Some o' →
         ∃ o b x, reactions sbml !! r = Some o
                  ∧ o' = set_lower_bound x (set_is_uptake_secretion b o))
    ∧ arg_compounds call ⊆ compounds sbml.
Proof.
  destruct (notebook_spec sbml media) as (st & Hrun & Hcl & ->).
  eexists. split; [done|]. simpl. rewrite (cl_store _ _ Hcl).
  split; [|split; [|split]].
  - by rewrite dom_clamp_where, dom_fmap_L.
  - intros r. rewrite lookup_clamp_where, lookup_fmap.
    destruct (reactions sbml !! r) as [o|]; simpl; constructor.
    unfold mark. destruct (_ && _), (category_of o); done.
  - intros r o'. rewrite lookup_clamp_where, lookup_fmap.
    destruct (reactions sbml !! r) as [o|]; simpl; [|done].
    intros [= <-]. exists o, (is_uptake_secretion (mark o)).
    match goal with |- context [if ?c then _ else _] =>
      exists (if c then float_zero else lower_bound o); destruct c
    end; (split; [done|]); unfold mark; by destruct (category_of o), o.
  - apply map_filter_subseteq.
Qed.

(** C9, as amended: when the boundary dictionary is empty the loop over
    the bounds returns the store as it was, for every medium; and the
    filter returns the whole compound dictionary exactly when every
    flagged compound of the compound dictionary is referred to by a
    reaction whose name does not carry the biomass marker. *)
Theorem no_boundary_noop sbml :
  ∃ st, classify (reactions sbml) = Ok st
    ∧ (uptake_secretion_reactions st = ∅ →
       (∀ media, reconcile in_media (uptake_secretion_reactions st) media
                   (cl_reactions st) = Ok (cl_reactions st))
       ∧ (filter_compounds (compounds sbml) = Ok (compounds sbml)
          ↔ flagged_referenced sbml)).
Proof.
  destruct (classify_spec (reactions sbml)) as (st & Hrun & Hcl).
  exists st. split; [done|]. intros Hempty. split.
  - intros media. rewrite Hempty. apply reconcile_empty.
  - rewrite filter_compounds_spec. split.
    + intros Hall%Ok_inj k c Hc Hflag. exfalso.
      rewrite <- Hall in Hc. apply map_lookup_filter_Some in Hc as [_ Hc].
      simpl in Hc. congruence.
    + intros Href. f_equal.
      apply map_filter_id. intros k c Hc. simpl.
      destruct (uptake_secretion c) eqn:Eflag; [|done]. exfalso.
      destruct (Href k c Hc Eflag) as (r & o & Ho & Hbio & Hin).
      assert (r ∈ dom (uptake_secretion_reactions st)) as Hr.
      { apply (classified_boundary_dom _ _ _ Hcl), category_at_Boundary.
        exists o. split; [done|]. split; [done|].
        apply scan_boundary_true. eauto. }
      rewrite Hempty, dom_empty_L in Hr. by apply elem_of_empty in Hr.
Qed.

End MediaProperties.

End Properties.

(** * Further properties *)

Section FurtherProperties.
Context {order : DictOrder}.

(** ** The sizes that cells 4, 6 and 7 print *)

Lemma elem_of_dom_biomass_named rs k :
  k ∈ dom (biomass_named rs) ↔ category_at rs k = Some Biomass.
Proof.
  rewrite category_at_Biomass, elem_of_dom. unfold biomass_named, is_Some.
  setoid_rewrite map_lookup_filter_Some. done.
Qed.

Lemma classified_sizes rs st :
  classified rs st →
  size rs = size (uptake_secretion_reactions st) + size (reactions_to_run st)
            + size (biomass_named rs).
Proof.
  intros Hcl.
  rewrite <- (size_dom (D := gset string) rs).
  rewrite <- (size_dom (D := gset string) (uptake_secretion_reactions st)).
  rewrite <- (size_dom (D := gset string) (biomass_named rs)).
  rewrite <- !size_union.
  - f_equal. apply set_eq. intros k.
    rewrite !elem_of_union, (classified_boundary_dom rs st k Hcl),
      (cl_run rs st Hcl), elem_of_dom_biomass_named, elem_of_dom.
    unfold category_at. destruct (rs !! k) as [o|]; simpl.
    + split; [intros _|by eauto]. destruct (category_of o); tauto.
    + split; [by intros [? ?]|]. intros [[?|?]|?]; done.
  - intros k Hk. apply elem_of_union in Hk as [Hk|Hk].
    + apply (classified_boundary_dom rs st k Hcl) in Hk.
      rewrite elem_of_dom_biomass_named. congruence.
    + apply (cl_run rs st Hcl) in Hk.
      rewrite elem_of_dom_biomass_named. congruence.
  - intros k Hk. apply (classified_boundary_dom rs st k Hcl) in Hk.
    rewrite (cl_run rs st Hcl). congruence.
Qed.

Lemma notebook_report_spec sbml :
  ∃ st, classify (reactions sbml) = Ok st
    ∧ classified (reactions sbml) st
    ∧ notebook_report sbml = Ok
        {| n_reactions := size (reactions sbml);
           n_uptake_secretion_reactions := size (uptake_secretion_reactions st);
           n_reactions_to_run := size (reactions_to_run st);
           n_all_compounds := size (compounds sbml);
           n_filtered_compounds :=
             size (filter (λ kc, uptake_secretion kc.2 = false) (compounds sbml));
           matrix_reactions := size (reactions_to_run st);
           matrix_compounds :=
             size (filter (λ kc, uptake_secretion kc.2 = false) (compounds sbml))
        |}.
Proof.
  destruct (classify_spec (reactions sbml)) as (st & Hrun & Hcl).
  exists st. split; [done|]. split; [done|].
  unfold notebook_report. rewrite Hrun. simpl.
  rewrite filter_compounds_spec. simpl.
  by rewrite (cl_store _ _ Hcl), map_size_fmap.
Qed.

(** X1: the three numbers of cell 4 add up: the number of reactions is the
    number of uptake/secretion reactions plus the number of reactions to
    run plus the number of reactions whose names carry the biomass marker. *)
Theorem report_reaction_counts sbml :
  ∃ rep, notebook_report sbml = Ok rep
    ∧ n_reactions rep
      = n_uptake_secretion_reactions rep + n_reactions_to_run rep
        + size (biomass_named (reactions sbml)).
Proof.
  destruct (notebook_report_spec sbml) as (st & _ & Hcl & ->).
  eexists. split; [done|]. simpl. by apply classified_sizes.
Qed.

(** X2: the two numbers of cell 6 differ by the number of flagged
    compounds, and the matrix of cell 7 has one row for each reaction to
    run and one column for each compound that is not flagged. *)
Theorem report_compound_counts sbml :
  ∃ rep, notebook_report sbml = Ok rep
    ∧ n_all_compounds rep
      = n_filtered_compounds rep + size (flagged (compounds sbml))
    ∧ matrix_compounds rep + size (flagged (compounds sbml))
      = n_all_compounds rep
    ∧ matrix_reactions rep + n_uptake_secretion_reactions rep
        + size (biomass_named (reactions sbml))
      = n_reactions rep.
Proof.
  destruct (notebook_report_spec sbml) as (st & _ & Hcl & ->).
  eexists. split; [done|]. simpl.
  assert (Hsize : size (compounds sbml)
    = size (filter (λ kc, uptake_secretion kc.2 = false) (compounds sbml))
      + size (flagged (compounds sbml))).
  { assert (flagged (compounds sbml)
            = filter (λ kc, ¬ uptake_secretion kc.2 = false) (compounds sbml))
      as ->.
    { apply map_filter_ext. intros k c _. simpl.
      by destruct (uptake_secretion c). }
    rewrite <- map_size_disj_union
      by apply map_disjoint_filter_complement.
    by rewrite map_filter_union_complement. }
  split; [done|]. split; [lia|].
  rewrite (classified_sizes _ _ Hcl). lia.
Qed.


(** ** What the solver is handed *)

Section FurtherMedia.
Context {Medium : Type} (in_media : Compound → Medium → bool).
Implicit Types (boundary : gmap string ref) (media : Medium).
Implicit Types (rs : gmap string Reaction) (sbml : SBML).

(** An object of the store that is handed to the solver, and the object
    the loader gave under the same key. *)
Lemma prepared_lookup (f : string → bool) rs r o' :
  clamp_where f (mark <$> rs) !! r = Some o' →
  ∃ o, rs !! r = Some o
       ∧ o' = (if f r then set_lower_bound float_zero (mark o) else mark o).
Proof.
  rewrite lookup_clamp_where, lookup_fmap.
  destruct (rs !! r) as [o|]; simpl; [|done]. intros [= <-]. eauto.
Qed.

Lemma all_compounds_mark o : all_compounds (mark o) = all_compounds o.
Proof. unfold mark. by destruct (category_of o). Qed.

Lemma boundary_lookup_None rs st r :
  classified rs st → category_at rs r ≠ Some Boundary →
  uptake_secretion_reactions st !! r = None.
Proof.
  intros Hcl Hcat. rewrite (cl_boundary rs st Hcl). by rewrite decide_False.
Qed.

(** X3: the matrix of cell 7 has a column for every compound of every
    reaction to run: such a compound, when the compound dictionary holds it
    under a key, is handed to the solver under that key.  Every
    uptake/secretion reaction has a compound that is under no key. *)
Theorem matrix_columns_cover sbml media :
  ∃ call, notebook in_media sbml media = Ok call
    ∧ (∀ r o c k, r ∈ arg_reactions_to_run call →
         arg_reactions call !! r = Some o → c ∈ all_compounds o →
         compounds sbml !! k = Some c → arg_compounds call !! k = Some c)
    ∧ (∀ r o, r ∈ dom (arg_uptake_secretion_reactions call) →
         arg_reactions call !! r = Some o →
         ∃ c, c ∈ all_compounds o
              ∧ ∀ k, arg_compounds call !! k ≠ Some c).
Proof.
  destruct (notebook_spec in_media sbml media) as (st & Hrun & Hcl & ->).
  eexists. split; [done|]. simpl. rewrite (cl_store _ _ Hcl). split.
  - intros r o' c k Hr Ho' Hc Hk.
    apply prepared_lookup in Ho' as (o & Ho & ->).
    apply (cl_run _ _ Hcl), category_at_Runnable in Hr as (o1 & Ho1 & _ & Hscan).
    assert (o1 = o) as -> by congruence.
    apply map_lookup_filter_Some. split; [done|]. simpl.
    apply (proj1 (scan_boundary_false _) Hscan).
    destruct (_ && _); simpl in Hc; by rewrite all_compounds_mark in Hc.
  - intros r o' Hr Ho'.
    apply prepared_lookup in Ho' as (o & Ho & ->).
    apply (classified_boundary_dom _ _ _ Hcl), category_at_Boundary in Hr
      as (o1 & Ho1 & _ & Hscan).
    assert (o1 = o) as -> by congruence.
    apply scan_boundary_true in Hscan as (c & Hc & Hflag).
    exists c. split.
    + destruct (_ && _); simpl; by rewrite all_compounds_mark.
    + intros k Hk. apply map_lookup_filter_Some in Hk as [_ Hk].
      simpl in Hk. congruence.
Qed.

(** X4: the cells write to the objects of the uptake/secretion reactions
    only: a reaction that is not in the boundary dictionary, be it a
    reaction to run or one with the biomass marker in its name, reaches
    the solver as the object the loader gave. *)
Theorem other_reactions_untouched sbml media :
  ∃ call, notebook in_media sbml media = Ok call
    ∧ ∀ r, r ∉ dom (arg_uptake_secretion_reactions call) →
           arg_reactions call !! r = reactions sbml !! r.
Proof.
  destruct (notebook_spec in_media sbml media) as (st & Hrun & Hcl & ->).
  eexists. split; [done|]. simpl. intros r Hr.
  rewrite (classified_boundary_dom _ _ _ Hcl) in Hr.
  rewrite lookup_clamp_where, (cl_store _ _ Hcl), lookup_fmap.
  rewrite (boundary_lookup_None _ _ _ Hcl Hr).
  rewrite (bool_decide_eq_false_2 (is_Some None)) by (by intros [? ?]).
  simpl. unfold category_at in Hr.
  destruct (reactions sbml !! r) as [o|]; simpl; [|done].
  f_equal. apply mark_fixed. simpl in Hr. congruence.
Qed.

(** X5: the ids handed to the solver name reactions that are handed to
    it: the reactions to run, the keys of the boundary dictionary and the
    biomass reaction are keys of the reaction dictionary, which has the
    keys the loader gave; the boundary dictionary holds under each key the
    reaction of that key, whose flag is set. *)
Theorem solver_arguments_consistent sbml media :
  ∃ call, notebook in_media sbml media = Ok call
    ∧ dom (arg_reactions call) = dom (reactions sbml)
    ∧ arg_reactions_to_run call ⊆ dom (arg_reactions call)
    ∧ dom (arg_uptake_secretion_reactions call) ⊆ dom (arg_reactions call)
    ∧ (∀ r, arg_biomass_equation call = Some r → r ∈ dom (arg_reactions call))
    ∧ (∀ r p, arg_uptake_secretion_reactions call !! r = Some p →
         p = r ∧ is_uptake_secretion <$> arg_reactions call !! r = Some true).
Proof.
  destruct (notebook_spec in_media sbml media) as (st & Hrun & Hcl & ->).
  eexists. split; [done|]. simpl.
  assert (Hdom : dom (clamp_where
            (λ k, bool_decide (is_Some (uptake_secretion_reactions st !! k))
                  && unfed in_media (uptake_secretion_reactions st) media
                       (cl_reactions st) k) (cl_reactions st))
          = dom (reactions sbml)).
  { by rewrite dom_clamp_where, (cl_store _ _ Hcl), dom_fmap_L. }
  assert (Hkey : ∀ k c, category_at (reactions sbml) k = Some c →
                        k ∈ dom (reactions sbml)).
  { intros k c Hc. apply elem_of_dom, elem_of_dict_keys.
    by eapply category_at_Some. }
  split; [done|]. rewrite Hdom. split; [|split; [|split]].
  - intros r Hr. apply (cl_run _ _ Hcl) in Hr. by eapply Hkey.
  - intros r Hr. apply (classified_boundary_dom _ _ _ Hcl) in Hr.
    by eapply Hkey.
  - intros r Hr. apply (classified_biomass _ _ _ Hcl) in Hr. by eapply Hkey.
  - intros r p Hp. rewrite (cl_boundary _ _ Hcl) in Hp.
    case_decide as Hcat; [|done]. split; [congruence|].
    apply category_at_Boundary in Hcat as (o & Ho & Hb & Hs).
    rewrite lookup_clamp_where, (cl_store _ _ Hcl), lookup_fmap, Ho. simpl.
    unfold mark, category_of. rewrite Hb, Hs. by destruct (_ && _).
Qed.

(** ** More on the loop over the bounds *)

Lemma clamp_where_compose f g rs :
  clamp_where g (clamp_where f rs) = clamp_where (λ k, f k || g k) rs.
Proof.
  apply map_eq. intros k. rewrite !lookup_clamp_where.
  destruct (rs !! k); simpl; [|done]. by destruct (f k), (g k).
Qed.

Lemma view_of_clamp_where boundary f rs :
  view_of boundary rs → view_of boundary (clamp_where f rs).
Proof.
  intros Hv u p Hp. destruct (Hv u p Hp) as [-> Hu]. split; [done|].
  by rewrite lookup_clamp_where, fmap_is_Some.
Qed.

Lemma closes_clamp_where boundary media rs f k :
  closes in_media boundary media (clamp_where f rs) k
  = closes in_media boundary media rs k.
Proof. unfold closes. by rewrite unfed_clamp_where. Qed.

Lemma reconcile_closes boundary media rs :
  view_of boundary rs →
  reconcile in_media boundary media rs
  = Ok (clamp_where (closes in_media boundary media rs) rs).
Proof. apply reconcile_view. Qed.

Lemma reconcile_second_pass boundary media1 media2 rs :
  view_of boundary rs →
  reconcile in_media boundary media2
    (clamp_where (closes in_media boundary media1 rs) rs)
  = Ok (clamp_where (λ k, closes in_media boundary media1 rs k
                          || closes in_media boundary media2 rs k) rs).
Proof.
  intros Hv. rewrite reconcile_closes by by apply view_of_clamp_where.
  f_equal. rewrite clamp_where_compose. apply clamp_where_ext.
  intros k. by rewrite closes_clamp_where.
Qed.

Lemma closes_true boundary media rs k :
  view_of boundary rs →
  closes in_media boundary media rs k = true
  ↔ ∃ o, is_Some (boundary !! k) ∧ rs !! k = Some o
         ∧ ∀ c, c ∈ all_compounds o → in_media c media = false.
Proof.
  intros Hv. unfold closes, unfed.
  rewrite andb_true_iff, bool_decide_eq_true. split.
  - intros [[p Hp] Hu]. rewrite Hp in Hu. destruct (Hv k p Hp) as [-> [o Ho]].
    rewrite Ho in Hu. exists o. split; [eauto|]. split; [done|].
    apply (scan_media_false in_media). by destruct (scan_media _ _ _).
  - intros (o & [p Hp] & Ho & Hc). split; [eauto|].
    destruct (Hv k p Hp) as [-> _]. rewrite Hp, Ho.
    apply (scan_media_false in_media) in Hc. by rewrite Hc.
Qed.

(** X6: a richer medium closes fewer uptakes: after the pass with the
    richer medium every object is as before the pass or as after the pass
    with the poorer medium. *)
Theorem reconcile_richer_medium boundary media1 media2 rs :
  view_of boundary rs → richer in_media media1 media2 →
  ∃ rs1 rs2, reconcile in_media boundary media1 rs = Ok rs1
    ∧ reconcile in_media boundary media2 rs = Ok rs2
    ∧ ∀ k, rs2 !! k = rs !! k ∨ rs2 !! k = rs1 !! k.
Proof.
  intros Hv Hle. rewrite !reconcile_closes by done.
  eexists _, _. split; [done|]. split; [done|]. intros k.
  rewrite !lookup_clamp_where.
  destruct (closes in_media boundary media2 rs k) eqn:E2.
  - right. apply (closes_true _ _ _ _ Hv) in E2 as (o & Hb & Ho & Hc).
    assert (closes in_media boundary media1 rs k = true) as ->; [|done].
    apply (closes_true _ _ _ _ Hv). exists o. split; [done|]. split; [done|].
    intros c Hin. specialize (Hc c Hin).
    destruct (in_media c media1) eqn:E1; [|done].
    apply Hle in E1. congruence.
  - left. by destruct (rs !! k).
Qed.

(** X7: two passes with two media give the same store in either order. *)
Theorem reconcile_passes_commute boundary media1 media2 rs :
  view_of boundary rs →
  ∃ rs1 rs2 rs', reconcile in_media boundary media1 rs = Ok rs1
    ∧ reconcile in_media boundary media2 rs = Ok rs2
    ∧ reconcile in_media boundary media2 rs1 = Ok rs'
    ∧ reconcile in_media boundary media1 rs2 = Ok rs'.
Proof.
  intros Hv. rewrite !reconcile_closes by done.
  eexists _, _, _. split; [done|]. split; [done|].
  rewrite !reconcile_second_pass by done.
  split; [done|]. f_equal. apply clamp_where_ext. intros k. apply orb_comm.
Qed.

(** X8: the pass never restores a bound.  A later pass, with whatever
    medium, leaves every object as it is or sets its lower bound to [0.0];
    a lower bound that is [0.0] stays [0.0]. *)
Theorem reconcile_never_restores boundary media1 media2 rs :
  view_of boundary rs →
  ∃ rs1 rs2, reconcile in_media boundary media1 rs = Ok rs1
    ∧ reconcile in_media boundary media2 rs1 = Ok rs2
    ∧ ∀ k o1, rs1 !! k = Some o1 →
        ∃ o2, rs2 !! k = Some o2
              ∧ (o2 = o1 ∨ o2 = set_lower_bound float_zero o1)
              ∧ (lower_bound o1 = float_zero → lower_bound o2 = float_zero).
Proof.
  intros Hv. rewrite reconcile_closes by done.
  eexists _, _. split; [done|].
  rewrite reconcile_closes by by apply view_of_clamp_where.
  split; [done|]. intros k o1 Ho1.
  rewrite (lookup_clamp_where _ (clamp_where _ rs)), Ho1. simpl.
  eexists. split; [done|]. destruct (closes _ _ _ _ _); simpl; tauto.
Qed.

(** X9: when every flagged compound of every reaction is in the medium,
    the notebook changes no lower bound. *)
Theorem notebook_covering_medium sbml media :
  medium_covers in_media media (reactions sbml) →
  ∃ call, notebook in_media sbml media = Ok call
    ∧ ∀ r o, reactions sbml !! r = Some o →
        lower_bound <$> arg_reactions call !! r = Some (lower_bound o).
Proof.
  intros Hcov.
  destruct (notebook_spec in_media sbml media) as (st & Hrun & Hcl & ->).
  eexists. split; [done|]. simpl. intros r o Ho.
  rewrite lookup_clamp_where, (cl_store _ _ Hcl), lookup_fmap, Ho. simpl.
  f_equal.
  assert (Hlow : lower_bound (mark o) = lower_bound o)
    by (unfold mark; by destruct (category_of o)).
  destruct (bool_decide _) eqn:Eb; simpl; [|done].
  apply bool_decide_eq_true in Eb as [p Hp].
  rewrite (cl_boundary _ _ Hcl) in Hp. case_decide as Hcat; [|done].
  pose proof Hcat as (o1 & Ho1 & _ & Hscan)%category_at_Boundary.
  assert (o1 = o) as -> by congruence.
  apply scan_boundary_true in Hscan as (c & Hc & Hflag).
  assert (unfed in_media (uptake_secretion_reactions st) media
            (mark <$> reactions sbml) r = false) as ->; [|done].
  unfold unfed. rewrite (cl_boundary _ _ Hcl), decide_True by done.
  rewrite lookup_fmap, Ho. simpl. rewrite all_compounds_mark.
  apply negb_false_iff, (scan_media_true in_media). exists c. split; [done|].
  pose proof (Hcov r o Ho) as Hall. rewrite Forall_forall in Hall.
  by apply Hall.
Qed.

(** ** When the loop over the bounds raises [KeyError] *)

(** A loop that stops with an exception stops in one of its iterations,
    in a state that the iterations before have kept in [P]. *)
Lemma for_each_Raise {S K : Type} (body : S → K → result S) (P : S → Prop)
    (ks : list K) (st : S) (e : exn) :
  P st → (∀ s k s', P s → body s k = Ok s' → P s') →
  for_each body ks st = Raise e →
  ∃ k s, k ∈ ks ∧ P s ∧ body s k = Raise e.
Proof.
  intros Hst Hkeep. revert st Hst.
  induction ks as [|k ks IH]; intros st Hst; simpl; [done|].
  destruct (body st k) as [st'|e'] eqn:Hbody; simpl.
  - intros Hrest.
    destruct (IH st' (Hkeep _ _ _ Hst Hbody) Hrest) as (k' & s & Hk' & Hs & Hb).
    exists k', s. split; [|done]. apply elem_of_cons. tauto.
  - intros [= ->]. exists k, st. split; [|done]. apply elem_of_cons. tauto.
Qed.

Lemma reconcile_body_Raise boundary media rs f u e :
  live boundary rs →
  reconcile_body in_media boundary media (clamp_where f rs) u = Raise e →
  (boundary !! u = None ∧ e = KeyError u)
  ∨ (∃ p o, boundary !! u = Some p ∧ rs !! p = Some o
            ∧ scan_media in_media media (all_compounds o) = false
            ∧ rs !! u = None ∧ e = KeyError u).
Proof.
  intros Hlive. unfold reconcile_body, getitem.
  destruct (boundary !! u) as [p|] eqn:Hp; simpl;
    [|intros [= <-]; by left].
  destruct (Hlive u p Hp) as [o Ho].
  rewrite (lookup_clamp_where f rs p), Ho. simpl.
  assert (Hcs : all_compounds (if f p then set_lower_bound float_zero o else o)
                = all_compounds o) by (by destruct (f p)).
  rewrite Hcs.
  destruct (scan_media in_media media (all_compounds o)) eqn:Hscan; simpl;
    [done|].
  rewrite (lookup_clamp_where f rs u).
  destruct (rs !! u) as [ou|] eqn:Hu; simpl.
  - destruct (decide (p = u)) as [->|Hne].
    + by rewrite lookup_insert_eq.
    + rewrite lookup_insert_ne by done.
      by rewrite (lookup_clamp_where f rs p), Ho.
  - intros [= <-]. right. exists p, o. done.
Qed.

(** X10: when every reference of the boundary dictionary names an object
    of the store, the loop raises only [KeyError] for a key [u] of the
    boundary dictionary that the reaction dictionary lacks, and only when
    none of the compounds of the object behind [u] is in the medium; when
    it ends, there is no such key. *)
Theorem reconcile_KeyError boundary media rs :
  live boundary rs →
  match reconcile in_media boundary media rs with
  | Ok _ =>
      ∀ u p o, boundary !! u = Some p → rs !! p = Some o →
        (∀ c, c ∈ all_compounds o → in_media c media = false) →
        is_Some (rs !! u)
  | Raise e =>
      ∃ u p o, e = KeyError u ∧ boundary !! u = Some p ∧ rs !! p = Some o
        ∧ (∀ c, c ∈ all_compounds o → in_media c media = false)
        ∧ rs !! u = None
  end.
Proof.
  intros Hlive.
  pose proof (reconcile_over_spec in_media boundary media rs
                (dict_keys boundary)) as Hspec.
  unfold reconcile.
  destruct (reconcile_over in_media (dict_keys boundary) boundary media rs)
    as [rs'|e] eqn:Hrun.
  - destruct Hspec as [Hok _]. intros u p o Hp Ho Hnone.
    rewrite forallb_forall in Hok.
    assert (Hin : In u (dict_keys boundary)).
    { apply list_elem_of_In, elem_of_dict_keys. eauto. }
    specialize (Hok u Hin). unfold body_ok in Hok. rewrite Hp, Ho in Hok.
    apply (scan_media_false in_media) in Hnone. rewrite Hnone in Hok.
    simpl in Hok. by apply bool_decide_eq_true in Hok.
  - unfold reconcile_over in Hrun.
    apply (for_each_Raise _ (λ s, ∃ f, s = clamp_where f rs)) in Hrun
      as (u & s & Hu & [f ->] & Hbody).
    + apply elem_of_dict_keys in Hu as [p Hp].
      apply (reconcile_body_Raise _ _ _ _ _ _ Hlive) in Hbody
        as [[Hnone _]|(p' & o & Hp' & Ho & Hscan & Hmiss & ->)];
        [congruence|].
      exists u, p', o. repeat split; try done.
      by apply (scan_media_false in_media).
    + exists (λ _, false). symmetry. apply clamp_where_none.
    + intros s k s' [f ->] Hbody.
      pose proof (reconcile_body_clamped in_media boundary media rs f k) as Hc.
      rewrite Hbody in Hc. destruct Hc as [_ ->]. eauto.
Qed.

End FurtherMedia.

End FurtherProperties.

(** ** The order of the loops, and a second run of cell 3 *)

Lemma classified_any_order (order1 order2 : DictOrder) rs st1 st2 :
  classified (order := order1) rs st1 → classified (order := order2) rs st2 →
  cl_reactions st1 = cl_reactions st2
  ∧ reactions_to_run st1 = reactions_to_run st2
  ∧ uptake_secretion_reactions st1 = uptake_secretion_reactions st2
  ∧ (at_most_one_biomass rs → biomass_equation st1 = biomass_equation st2).
Proof.
  intros Hcl1 Hcl2. split; [|split; [|split]].
  - by rewrite (cl_store _ _ Hcl1), (cl_store _ _ Hcl2).
  - apply set_eq. intros k. by rewrite (cl_run _ _ Hcl1), (cl_run _ _ Hcl2).
  - apply map_eq. intros k.
    by rewrite (cl_boundary _ _ Hcl1), (cl_boundary _ _ Hcl2).
  - intros Hone. destruct (biomass_equation st1) as [r|] eqn:E1.
    + symmetry. apply (classified_biomass_unique _ _ _ Hcl2 Hone).
      by apply (classified_biomass _ _ _ Hcl1).
    + destruct (biomass_equation st2) as [r|] eqn:E2; [|done].
      apply (classified_biomass _ _ _ Hcl2) in E2.
      rewrite (classified_biomass_unique _ _ _ Hcl1 Hone E2) in E1. done.
Qed.

(** X11: the store, the reactions to run and the boundary dictionary that
    cell 3 ends with do not depend on the order in which the loop visits
    the reactions; [biomass_equation] does not either when at most one
    name carries the biomass marker, and it can when two names do. *)
Theorem classify_order_independent :
  (∀ (order1 order2 : DictOrder) (rs : gmap string Reaction),
     ∃ st1 st2, classify (order := order1) rs = Ok st1
       ∧ classify (order := order2) rs = Ok st2
       ∧ cl_reactions st1 = cl_reactions st2
       ∧ reactions_to_run st1 = reactions_to_run st2
       ∧ uptake_secretion_reactions st1 = uptake_secretion_reactions st2
       ∧ (at_most_one_biomass rs →
          biomass_equation st1 = biomass_equation st2))
  ∧ (∃ (order1 order2 : DictOrder) (rs : gmap string Reaction) st1 st2,
       classify (order := order1) rs = Ok st1
       ∧ classify (order := order2) rs = Ok st2
       ∧ biomass_equation st1 ≠ biomass_equation st2).
Proof.
  split.
  - intros order1 order2 rs.
    destruct (classify_spec (order := order1) rs) as (st1 & Hrun1 & Hcl1).
    destruct (classify_spec (order := order2) rs) as (st2 & Hrun2 & Hcl2).
    exists st1, st2. split; [done|]. split; [done|].
    by apply (classified_any_order order1 order2 rs).
  - exists trie_order, reversed_order, (reactions two_biomass_model).
    destruct (classify_spec (order := trie_order) (reactions two_biomass_model))
      as (st1 & Hrun1 & Hcl1).
    destruct (classify_spec (order := reversed_order)
                (reactions two_biomass_model)) as (st2 & Hrun2 & Hcl2).
    exists st1, st2. split; [done|]. split; [done|].
    rewrite (cl_biomass _ _ Hcl1), (cl_biomass _ _ Hcl2). by vm_compute.
Qed.

(** X12: when at most one name carries the biomass marker, the call of the
    solver does not depend on the order in which the three loops visit
    their dictionaries. *)
Theorem notebook_order_independent {Medium : Type}
    (in_media : Compound → Medium → bool) (order1 order2 : DictOrder)
    (sbml : SBML) (media : Medium) :
  at_most_one_biomass (reactions sbml) →
  notebook (order := order1) in_media sbml media
  = notebook (order := order2) in_media sbml media.
Proof.
  intros Hone.
  destruct (notebook_spec (order := order1) in_media sbml media)
    as (st1 & _ & Hcl1 & ->).
  destruct (notebook_spec (order := order2) in_media sbml media)
    as (st2 & _ & Hcl2 & ->).
  destruct (classified_any_order order1 order2 _ _ _ Hcl1 Hcl2)
    as (Hs & Hr & Hb & Hm).
  specialize (Hm Hone). destruct st1, st2. simpl in *. by subst.
Qed.

Section SecondRun.
Context {order : DictOrder}.

Lemma is_biomass_mark o : is_biomass (mark o) = is_biomass o.
Proof. unfold mark. by destruct (category_of o). Qed.

Lemma category_at_marked rs k :
  category_at (mark <$> rs) k = category_at rs k.
Proof.
  unfold category_at. rewrite lookup_fmap.
  destruct (rs !! k); simpl; [|done]. by rewrite category_of_mark.
Qed.

Lemma at_most_one_biomass_marked rs :
  at_most_one_biomass rs → at_most_one_biomass (mark <$> rs).
Proof.
  intros Hone k1 o1 H1 k2 o2 H2.
  rewrite lookup_fmap in H1, H2.
  destruct (rs !! k1) as [o1'|] eqn:E1; [|done].
  destruct (rs !! k2) as [o2'|] eqn:E2; [|done].
  simpl in *. injection H1 as <-. injection H2 as <-.
  rewrite !is_biomass_mark. by apply (Hone k1 o1' E1 k2 o2' E2).
Qed.

(** X13: to run cell 3 a second time, on the store that the first run has
    written to, changes neither the store nor the collections:
    classification is idempotent (for [biomass_equation], when at most
    one name carries the biomass marker). *)
Theorem classify_again (rs : gmap string Reaction) :
  ∃ st st', classify rs = Ok st
    ∧ classify (cl_reactions st) = Ok st'
    ∧ cl_reactions st' = cl_reactions st
    ∧ reactions_to_run st' = reactions_to_run st
    ∧ uptake_secretion_reactions st' = uptake_secretion_reactions st
    ∧ (at_most_one_biomass rs → st' = st).
Proof.
  destruct (classify_spec rs) as (st & Hrun & Hcl).
  destruct (classify_spec (cl_reactions st)) as (st' & Hrun' & Hcl').
  exists st, st'. split; [done|]. split; [done|].
  assert (Hs : cl_reactions st' = cl_reactions st).
  { rewrite (cl_store _ _ Hcl'), (cl_store _ _ Hcl).
    apply map_eq. intros k. rewrite !lookup_fmap.
    destruct (rs !! k); simpl; [|done]. by rewrite mark_idemp. }
  assert (Hr : reactions_to_run st' = reactions_to_run st).
  { apply set_eq. intros k.
    rewrite (cl_run _ _ Hcl'), (cl_run _ _ Hcl), (cl_store _ _ Hcl).
    by rewrite category_at_marked. }
  assert (Hb : uptake_secretion_reactions st' = uptake_secretion_reactions st).
  { apply map_eq. intros k.
    rewrite (cl_boundary _ _ Hcl'), (cl_boundary _ _ Hcl), (cl_store _ _ Hcl).
    by rewrite category_at_marked. }
  split; [done|]. split; [done|]. split; [done|].
  intros Hone.
  assert (Hm : biomass_equation st' = biomass_equation st).
  { pose proof (at_most_one_biomass_marked rs Hone) as Hone'.
    rewrite <- (cl_store _ _ Hcl) in Hone'.
    destruct (biomass_equation st) as [r|] eqn:E.
    - apply (classified_biomass_unique _ _ _ Hcl' Hone').
      rewrite (cl_store _ _ Hcl), category_at_marked.
      by apply (classified_biomass _ _ _ Hcl).
    - destruct (biomass_equation st') as [r|] eqn:E'; [|done].
      apply (classified_biomass _ _ _ Hcl') in E'.
      rewrite (cl_store _ _ Hcl), category_at_marked in E'.
      rewrite (classified_biomass_unique _ _ _ Hcl Hone E') in E. done. }
  destruct st, st'. simpl in *. by subst.
Qed.

End SecondRun.

(** ** The test for the biomass marker *)

Lemma prefix_append (p s : string) :
  String.prefix p s = true ↔ ∃ post, s = p +:+ post.
Proof.
  revert s. induction p as [|a p IH]; intros s; simpl.
  - destruct s; split; eauto.
  - destruct s as [|b s]; simpl.
    + split; [done|]. by intros [post ?].
    + destruct (ascii_dec a b) as [->|Hne].
      * rewrite IH. split; intros [post Hpost]; exists post.
        -- simpl. by rewrite Hpost.
        -- simpl in Hpost. by injection Hpost.
      * split; [done|]. intros [post Hpost]. simpl in Hpost.
        injection Hpost as Hba _. by destruct Hne.
Qed.

Lemma str_in_nil (pat : string) :
  str_in pat EmptyString = String.prefix pat EmptyString || false.
Proof. reflexivity. Qed.

Lemma str_in_cons (pat : string) (a : ascii) (s : string) :
  str_in pat (String a s) = String.prefix pat (String a s) || str_in pat s.
Proof. reflexivity. Qed.

Lemma str_in_append (pat s : string) :
  str_in pat s = true ↔ ∃ pre post, s = pre +:+ pat +:+ post.
Proof.
  induction s as [|a s IH].
  - rewrite str_in_nil, orb_false_r, prefix_append. split.
    + intros [post Hpost]. by exists EmptyString, post.
    + intros (pre & post & Hs). destruct pre; [eauto|done].
  - rewrite str_in_cons, orb_true_iff, prefix_append, IH. split.
    + intros [[post Hpost]|(pre & post & ->)].
      * by exists EmptyString, post.
      * by exists (String a pre), post.
    + intros (pre & post & Hs). destruct pre as [|b pre]; simpl in Hs.
      * left. eauto.
      * right. injection Hs as _ Hs. eauto.
Qed.

Lemma lower_append (s1 s2 : string) :
  lower (s1 +:+ s2) = lower s1 +:+ lower s2.
Proof. induction s1 as [|a s1 IH]; simpl; [done|]. by rewrite IH. Qed.

Lemma lower_append_inv (s t1 t2 : string) :
  lower s = t1 +:+ t2 →
  ∃ s1 s2, s = s1 +:+ s2 ∧ lower s1 = t1 ∧ lower s2 = t2.
Proof.
  revert s. induction t1 as [|b t1 IH]; intros s; simpl.
  - intros Hs. by exists EmptyString, s.
  - destruct s as [|a s]; simpl; [done|]. intros [= Ha Hs].
    destruct (IH s Hs) as (s1 & s2 & -> & H1 & H2).
    exists (String a s1), s2. simpl. by rewrite Ha, H1.
Qed.

(** X14: cell 3 takes a reaction for the biomass reaction exactly when its
    name has a part that reads [biomass_equation] once its capital letters
    are made small: the test is for a substring, in any mix of cases. *)
Theorem is_biomass_substring (o : Reaction) :
  is_biomass o = true
  ↔ ∃ pre mid post, name o = pre +:+ mid +:+ post
                    ∧ lower mid = "biomass_equation".
Proof.
  unfold is_biomass. rewrite str_in_append. split.
  - intros (pre & post & Hs).
    apply lower_append_inv in Hs as (s1 & s23 & Hname & _ & Hs).
    apply lower_append_inv in Hs as (s2 & s3 & -> & Hmid & _).
    by exists s1, s2, s3.
  - intros (pre & mid & post & -> & Hmid).
    exists (lower pre), (lower post). by rewrite !lower_append, Hmid.
Qed.

(** * The examples *)

(** ** The classification *)

Example is_biomass_any_case : is_biomass rxn_biomass_alt = true.
Proof. reflexivity. Qed.

Example is_biomass_other_name : is_biomass rxn_hexokinase = false.
Proof. reflexivity. Qed.

Example classify_example :
  classify (reactions example_model) = Ok example_classified.
Proof. vm_compute. reflexivity. Qed.

Example filter_compounds_example :
  filter_compounds example_compounds
  = Ok (list_to_map [("cpd_glc_c", cpd_glucose_c); ("cpd_g6p", cpd_g6p)]).
Proof. vm_compute. reflexivity. Qed.

(** With two biomass names the loop visits [bio1] before [bio2]; [bio1]
    ends in no collection. *)
Example classify_two_biomass :
  classify (reactions two_biomass_model)
  = Ok {| cl_reactions := list_to_map
            [("bio1", rxn_biomass); ("bio2", rxn_biomass_alt);
             ("EX_glc", set_is_uptake_secretion true rxn_ex_glucose);
             ("rxn_hex", rxn_hexokinase)];
          reactions_to_run := {["rxn_hex"]};
          uptake_secretion_reactions := list_to_map [("EX_glc", "EX_glc")];
          biomass_equation := Some "bio2" |}.
Proof. vm_compute. reflexivity. Qed.

(** Outside the data model the partition is lost, so [classify_partitions]
    needs its hypothesis: of two reactions whose names carry the biomass
    marker only the one visited last is named by [biomass_equation]; the
    other one is in none of the three sets. *)
Lemma two_biomass_not_partitioned :
  ¬ ∃ st, classify (reactions two_biomass_model) = Ok st
          ∧ partitions (reactions two_biomass_model) st.
Proof.
  intros (st & Hrun & _ & _ & _ & Hu).
  apply classify_deterministic in Hrun as Hcl.
  assert (Hin : "bio1" ∈ dom (reactions two_biomass_model)).
  { apply elem_of_dom. by eexists. }
  assert (Hcat : category_at (reactions two_biomass_model) "bio1" = Some Biomass)
    by reflexivity.
  rewrite <- Hu in Hin.
  apply elem_of_union in Hin as [Hin|Hin];
    [apply elem_of_union in Hin as [Hin|Hin]|].
  - apply (classified_boundary_dom _ _ _ Hcl) in Hin. congruence.
  - apply (cl_run _ _ Hcl) in Hin. congruence.
  - assert (Hlast : biomass_equation st = Some "bio2").
    { rewrite (cl_biomass _ _ Hcl). by vm_compute. }
    unfold biomass_ids in Hin. rewrite Hlast in Hin.
    apply elem_of_singleton in Hin. discriminate Hin.
Qed.

Lemma classify_partitions_example :
  at_most_one_biomass (reactions example_model)
  ∧ ∃ st, classify (reactions example_model) = Ok st
          ∧ partitions (reactions example_model) st.
Proof.
  assert (H : at_most_one_biomass (reactions example_model)).
  { apply (bool_decide_unpack _). vm_compute. exact I. }
  split; [exact H|]. apply (classify_partitions _ H).
Defined.

Lemma classify_boundary_iff_example :
  ∃ st, classify (reactions example_model) = Ok st
    ∧ ("rxn_transport" ∈ dom (uptake_secretion_reactions st)
       ↔ ∃ c, c ∈ all_compounds rxn_transport ∧ uptake_secretion c = true)
    ∧ ("rxn_transport" ∈ dom (uptake_secretion_reactions st) →
       uptake_secretion_reactions st !! "rxn_transport" = Some "rxn_transport"
       ∧ is_uptake_secretion <$> cl_reactions st !! "rxn_transport" = Some true)
    ∧ ("rxn_transport" ∈ reactions_to_run st
       ↔ "rxn_transport" ∉ dom (uptake_secretion_reactions st)).
Proof.
  apply (classify_boundary_iff (reactions example_model) "rxn_transport"
           rxn_transport); reflexivity.
Defined.

Lemma classify_biomass_example :
  ∃ st, classify (reactions example_model) = Ok st
    ∧ biomass_equation st = Some "bio1"
    ∧ ("bio1" ∉ dom (uptake_secretion_reactions st))
    ∧ ("bio1" ∉ reactions_to_run st).
Proof.
  destruct (classify_biomass (reactions example_model))
    as (st & Hrun & _ & Hone & Hout).
  assert (Hbio : biomass_equation st = Some "bio1").
  { apply (Hone "bio1" rxn_biomass); [reflexivity|reflexivity|].
    apply (bool_decide_unpack _). vm_compute. exact I. }
  exists st. split; [exact Hrun|]. split; [exact Hbio|].
  apply (Hout "bio1" Hbio).
Defined.

Lemma classify_keeps_flag_example :
  ∃ st, classify (reactions example_model) = Ok st
    ∧ "rxn_pgi" ∈ reactions_to_run st
    ∧ cl_reactions st !! "rxn_pgi" = Some rxn_flagged
    ∧ is_uptake_secretion <$> cl_reactions st !! "rxn_pgi" = Some true.
Proof.
  destruct (proj1 classify_keeps_flag (reactions example_model))
    as (st & Hrun & Hkeep & Hleft).
  exists st. split; [exact Hrun|].
  assert (Hc : ∀ c, c ∈ all_compounds rxn_flagged → uptake_secretion c = false).
  { intros c Hc. apply list_elem_of_singleton in Hc. rewrite Hc. reflexivity. }
  destruct (Hleft "rxn_pgi" rxn_flagged eq_refl eq_refl Hc) as [H1 H2].
  split; [exact H1|]. split; [exact H2|].
  apply (Hkeep "rxn_pgi" rxn_flagged eq_refl eq_refl).
Defined.

(** ** The bounds and the pipeline *)

Lemma example_classified_view :
  view_of (uptake_secretion_reactions example_classified)
          (cl_reactions example_classified).
Proof. apply (bool_decide_unpack _). vm_compute. exact I. Defined.

Lemma reconcile_bounds_example :
  (∃ rs' o', reconcile name_in_media
               (uptake_secretion_reactions example_classified) []
               (cl_reactions example_classified) = Ok rs'
     ∧ rs' !! "EX_glc" = Some o'
     ∧ lower_bound rxn_ex_glucose = float_minus_1000
     ∧ lower_bound o' = float_zero)
  ∧ (∃ rs' o', reconcile name_in_media
                 (uptake_secretion_reactions example_classified)
                 ["D-Glucose [e]"]
                 (cl_reactions example_classified) = Ok rs'
     ∧ rs' !! "EX_glc" = Some o'
     ∧ lower_bound o' = float_minus_1000
     ∧ upper_bound o' = float_1000).
Proof.
  split.
  - destruct (reconcile_bounds name_in_media
                (uptake_secretion_reactions example_classified) []
                (cl_reactions example_classified) "EX_glc" "EX_glc"
                (set_is_uptake_secretion true rxn_ex_glucose)
                example_classified_view eq_refl eq_refl)
      as (rs' & o' & Hrun & Ho' & Hzero & _).
    exists rs', o'. split; [exact Hrun|]. split; [exact Ho'|].
    split; [reflexivity|]. apply Hzero. intros c _. reflexivity.
  - destruct (reconcile_bounds name_in_media
                (uptake_secretion_reactions example_classified)
                ["D-Glucose [e]"]
                (cl_reactions example_classified) "EX_glc" "EX_glc"
                (set_is_uptake_secretion true rxn_ex_glucose)
                example_classified_view eq_refl eq_refl)
      as (rs' & o' & Hrun & Ho' & _ & Hsame).
    exists rs', o'. split; [exact Hrun|]. split; [exact Ho'|].
    apply Hsame. exists cpd_glucose_e. split; [|reflexivity].
    apply list_elem_of_singleton. reflexivity.
Defined.

Lemma reconcile_idempotent_example :
  view_of (uptake_secretion_reactions example_classified)
          (cl_reactions example_classified)
  ∧ ∃ rs', reconcile name_in_media
             (uptake_secretion_reactions example_classified) []
             (cl_reactions example_classified) = Ok rs'
           ∧ reconcile name_in_media
               (uptake_secretion_reactions example_classified) [] rs'
             = Ok rs'.
Proof.
  split; [exact example_classified_view|].
  apply (proj2 (reconcile_idempotent name_in_media
                  (uptake_secretion_reactions example_classified) []
                  (cl_reactions example_classified))).
  exact example_classified_view.
Defined.

(** C6, as stated, fails: without a biomass reaction the notebook raises
    nothing; it goes on to the call of the solver. *)
Lemma no_objective_reaches_solver :
  no_biomass (reactions no_objective_model)
  ∧ notebook name_in_media no_objective_model [] ≠ Raise MissingObjective.
Proof.
  split; [apply (bool_decide_unpack _); vm_compute; exact I|].
  destruct (notebook_spec name_in_media no_objective_model [])
    as (st & _ & _ & ->).
  discriminate.
Qed.

Lemma notebook_without_objective_example :
  no_biomass (reactions no_objective_model)
  ∧ ∃ call, notebook name_in_media no_objective_model ["D-Glucose [e]"]
            = Ok call
            ∧ arg_biomass_equation call = None.
Proof.
  assert (H : no_biomass (reactions no_objective_model)).
  { apply (bool_decide_unpack _). vm_compute. exact I. }
  split; [exact H|].
  apply (notebook_without_objective name_in_media no_objective_model _ H).
Defined.


(** C9, as stated, fails: a flagged compound that only the biomass
    reaction refers to makes no reaction a boundary reaction, and the
    filter still drops it. *)
Lemma no_boundary_model_filtered :
  ¬ no_boundary_claim name_in_media no_boundary_model.
Proof.
  intros Hclaim.
  destruct (classify (reactions no_boundary_model)) as [st|e] eqn:Hrun;
    [|by vm_compute in Hrun].
  assert (Hb : uptake_secretion_reactions st = ∅).
  { vm_compute in Hrun. injection Hrun as <-. reflexivity. }
  destruct (Hclaim st Hrun Hb) as [Hf _].
  rewrite filter_compounds_spec in Hf. apply Ok_inj in Hf.
  assert (Hc : compounds no_boundary_model !! "cpd_bio_e" = Some cpd_biomass_e)
    by reflexivity.
  rewrite <- Hf in Hc. apply map_lookup_filter_Some in Hc as [_ Hc].
  discriminate Hc.
Qed.

Lemma no_boundary_noop_example :
  ∃ st, classify (reactions internal_model) = Ok st
    ∧ uptake_secretion_reactions st = ∅
    ∧ (∀ media : list string,
         reconcile name_in_media (uptake_secretion_reactions st) media
           (cl_reactions st) = Ok (cl_reactions st))
    ∧ filter_compounds (compounds internal_model)
      = Ok (compounds internal_model).
Proof.
  destruct (no_boundary_noop name_in_media internal_model)
    as (st & Hrun & Hnoop).
  assert (Hb : uptake_secretion_reactions st = ∅).
  { vm_compute in Hrun. injection Hrun as <-. reflexivity. }
  destruct (Hnoop Hb) as [Hrec Hfilter].
  exists st. split; [exact Hrun|]. split; [exact Hb|]. split; [exact Hrec|].
  apply (proj2 Hfilter). apply (bool_decide_unpack _). vm_compute. exact I.
Defined.

(** ** The further properties *)

Example notebook_report_example :
  notebook_report example_model
  = Ok {| n_reactions := 5;
          n_uptake_secretion_reactions := 2;
          n_reactions_to_run := 2;
          n_all_compounds := 4;
          n_filtered_compounds := 2;
          matrix_reactions := 2;
          matrix_compounds := 2 |}.
Proof. vm_compute. reflexivity. Qed.

Example reconcile_aliased_example :
  reconcile name_in_media aliased_boundary []
    (cl_reactions example_classified)
  = Raise (KeyError "EX_glc_copy").
Proof. vm_compute. reflexivity. Qed.

Lemma richer_example :
  richer name_in_media ["Biomass [e]"] ["Biomass [e]"; "D-Glucose [e]"].
Proof.
  intros c Hc. unfold name_in_media in *.
  apply bool_decide_eq_true in Hc. apply bool_decide_eq_true.
  apply elem_of_cons. left. by apply list_elem_of_singleton in Hc.
Defined.

Lemma reconcile_richer_medium_example :
  view_of (uptake_secretion_reactions example_classified)
          (cl_reactions example_classified)
  ∧ richer name_in_media ["Biomass [e]"] ["Biomass [e]"; "D-Glucose [e]"]
  ∧ ∃ rs1 rs2,
      reconcile name_in_media (uptake_secretion_reactions example_classified)
        ["Biomass [e]"] (cl_reactions example_classified) = Ok rs1
      ∧ reconcile name_in_media (uptake_secretion_reactions example_classified)
          ["Biomass [e]"; "D-Glucose [e]"] (cl_reactions example_classified)
        = Ok rs2
      ∧ (∀ k, rs2 !! k = cl_reactions example_classified !! k
              ∨ rs2 !! k = rs1 !! k)
      ∧ lower_bound <$> cl_reactions example_classified !! "EX_glc"
        = Some float_minus_1000
      ∧ lower_bound <$> rs1 !! "EX_glc" = Some float_zero
      ∧ lower_bound <$> rs2 !! "EX_glc" = Some float_minus_1000.
Proof.
  split; [exact example_classified_view|]. split; [exact richer_example|].
  destruct (reconcile_richer_medium name_in_media _ _ _ _
              example_classified_view richer_example)
    as (rs1 & rs2 & Hrun1 & Hrun2 & Hall).
  exists rs1, rs2. split; [exact Hrun1|]. split; [exact Hrun2|].
  split; [exact Hall|]. split; [reflexivity|].
  pose proof Hrun1 as E1. vm_compute in E1. apply Ok_inj in E1.
  pose proof Hrun2 as E2. vm_compute in E2. apply Ok_inj in E2.
  rewrite <- E1, <- E2. split; vm_compute; reflexivity.
Defined.

Lemma reconcile_passes_commute_example :
  view_of (uptake_secretion_reactions example_classified)
          (cl_reactions example_classified)
  ∧ ∃ rs1 rs2 rs',
      reconcile name_in_media (uptake_secretion_reactions example_classified)
        [] (cl_reactions example_classified) = Ok rs1
      ∧ reconcile name_in_media (uptake_secretion_reactions example_classified)
          ["D-Glucose [e]"] (cl_reactions example_classified) = Ok rs2
      ∧ reconcile name_in_media (uptake_secretion_reactions example_classified)
          ["D-Glucose [e]"] rs1 = Ok rs'
      ∧ reconcile name_in_media (uptake_secretion_reactions example_classified)
          [] rs2 = Ok rs'.
Proof.
  split; [exact example_classified_view|].
  apply (reconcile_passes_commute name_in_media _ [] ["D-Glucose [e]"] _
           example_classified_view).
Defined.

Lemma reconcile_never_restores_example :
  view_of (uptake_secretion_reactions example_classified)
          (cl_reactions example_classified)
  ∧ ∃ rs1 rs2,
      reconcile name_in_media (uptake_secretion_reactions example_classified)
        [] (cl_reactions example_classified) = Ok rs1
      ∧ reconcile name_in_media (uptake_secretion_reactions example_classified)
          ["D-Glucose [e]"] rs1 = Ok rs2
      ∧ ∀ k o1, rs1 !! k = Some o1 →
          ∃ o2, rs2 !! k = Some o2
                ∧ (o2 = o1 ∨ o2 = set_lower_bound float_zero o1)
                ∧ (lower_bound o1 = float_zero → lower_bound o2 = float_zero).
Proof.
  split; [exact example_classified_view|].
  apply (reconcile_never_restores name_in_media _ [] ["D-Glucose [e]"] _
           example_classified_view).
Defined.

Lemma notebook_covering_medium_example :
  medium_covers name_in_media ["D-Glucose [e]"; "Biomass [e]"]
    (reactions example_model)
  ∧ ∃ call, notebook name_in_media example_model
              ["D-Glucose [e]"; "Biomass [e]"] = Ok call
      ∧ ∀ r o, reactions example_model !! r = Some o →
          lower_bound <$> arg_reactions call !! r = Some (lower_bound o).
Proof.
  assert (H : medium_covers name_in_media ["D-Glucose [e]"; "Biomass [e]"]
                (reactions example_model)).
  { apply (bool_decide_unpack _). vm_compute. exact I. }
  split; [exact H|].
  apply (notebook_covering_medium name_in_media example_model _ H).
Defined.

Lemma reconcile_KeyError_example :
  live aliased_boundary (cl_reactions example_classified)
  ∧ match reconcile name_in_media aliased_boundary []
            (cl_reactions example_classified) with
    | Ok _ =>
        ∀ u p o, aliased_boundary !! u = Some p →
          cl_reactions example_classified !! p = Some o →
          (∀ c, c ∈ all_compounds o → name_in_media c [] = false) →
          is_Some (cl_reactions example_classified !! u)
    | Raise e =>
        ∃ u p o, e = KeyError u ∧ aliased_boundary !! u = Some p
          ∧ cl_reactions example_classified !! p = Some o
          ∧ (∀ c, c ∈ all_compounds o → name_in_media c [] = false)
          ∧ cl_reactions example_classified !! u = None
    end.
Proof.
  assert (H : live aliased_boundary (cl_reactions example_classified)).
  { apply (bool_decide_unpack _). vm_compute. exact I. }
  split; [exact H|].
  apply (reconcile_KeyError name_in_media aliased_boundary [] _ H).
Defined.

Lemma notebook_order_independent_example :
  at_most_one_biomass (reactions example_model)
  ∧ notebook (order := trie_order) name_in_media example_model []
    = notebook (order := reversed_order) name_in_media example_model [].
Proof.
  assert (H : at_most_one_biomass (reactions example_model)).
  { apply (bool_decide_unpack _). vm_compute. exact I. }
  split; [exact H|].
  apply (notebook_order_independent name_in_media trie_order reversed_order
           example_model [] H).
Defined.
